(** * SimSWARM/Signal/signal.py: analog signals, transforms and generators

    A shallow embedding of [signal.py] (Python 2, numpy).  Python floats and
    numpy [float64] values are IEEE binary64 numbers, modelled by Rocq's
    primitive [float]; Python integers are [Z]; a call that can raise returns
    a [result].  The numpy routines whose values are transcendental (FFT,
    complex exponential, [log2], powers of ten, [sin]) and the Mersenne
    Twister behind [numpy.random.RandomState] are the fields of the class
    [Numpy]: every definition and theorem holds for any implementation of
    them. *)

From Stdlib Require Import ZArith List Bool Lia Floats.
Import ListNotations.

Set Implicit Arguments.
Set Warnings "-register-all".

Local Open Scope Z_scope.

(** ** Exceptions and fallible computations *)

Inductive exn : Type :=
| ValueError
| TypeError
| AttributeError
| IndexError
| OverflowError
| ZeroDivisionError.

Inductive result (A : Type) : Type :=
| Ok (a : A)
| Raise (e : exn).

Arguments Ok {A} a.
Arguments Raise {A} e.

Definition bind {A B : Type} (m : result A) (k : A -> result B) : result B :=
  match m with
  | Ok a => k a
  | Raise e => Raise e
  end.

Notation "x <- m ;; k" := (bind m (fun x => k))
  (at level 61, m at next level, right associativity).

Fixpoint mapM {A B : Type} (f : A -> result B) (l : list A) : result (list B) :=
  match l with
  | [] => Ok []
  | a :: l' => b <- f a ;; bs <- mapM f l' ;; Ok (b :: bs)
  end.

Definition is_ok {A : Type} (m : result A) : bool :=
  match m with Ok _ => true | Raise _ => false end.

(** ** Binary64 helpers

    The conversions between Python integers and floats that the source
    performs implicitly or through [int], [np.floor] and [np.ceil]. *)

Module F64.

Definition is_zero (x : float) : bool := (x =? 0)%float.

(** [int(np.floor(x))]: [int] raises on a NaN and on an infinity. *)
Definition floor_int (x : float) : result Z :=
  match Prim2SF x with
  | S754_nan => Raise ValueError
  | S754_infinity _ => Raise OverflowError
  | S754_zero _ => Ok 0
  | S754_finite s m e => Ok (Z.shiftl (if s then Zneg m else Zpos m) e)
  end.

(** [int(np.ceil(x))]. *)
Definition ceil_int (x : float) : result Z :=
  match Prim2SF x with
  | S754_nan => Raise ValueError
  | S754_infinity _ => Raise OverflowError
  | S754_zero _ => Ok 0
  | S754_finite s m e => Ok (- Z.shiftl (if s then Zpos m else Zneg m) e)
  end.

(** The double nearest to an integer (ties to even), as the conversion of
    an integer to a C [double] gives it. *)
Definition of_Z (z : Z) : float :=
  SF2Prim (binary_normalize prec emax z 0 false).

(** Python's implicit conversion of an [int] operand to [float]: it raises
    when the integer is too large for a double. *)
Definition of_int (z : Z) : result float :=
  let x := of_Z z in
  if is_infinity x then Raise OverflowError else Ok x.

(** Python float division [x / y]. *)
Definition py_div (x y : float) : result float :=
  if is_zero y then Raise ZeroDivisionError else Ok (x / y)%float.

(** [np.pi], the double nearest to pi. *)
Definition pi : float := 0x1.921fb54442d18p+1%float.

(** Two floats denote the same number: they are the same double, or IEEE
    comparison [==] holds between them (the two zeros). *)
Definition same_number (x y : float) : Prop :=
  x = y \/ (x =? y)%float = true.

End F64.

(** ** numpy arrays

    One-dimensional [float64] and [complex128] arrays are lists. *)

Abbreviation array := (list float).

Record complex : Type := Complex { re : float; im : float }.

Definition c_of_float (x : float) : complex := Complex x 0.

(** Complex product, [(a + bj)(c + dj) = (ac - bd) + (ad + bc)j]. *)
Definition cmul (x y : complex) : complex :=
  Complex (re x * re y - im x * im y)%float (re x * im y + im x * re y)%float.

(** The Python literal [1j]. *)
Definition c_j : complex := Complex 0 1.

(** [range(a, b)] on integers, as a list; [np.arange(a, b)] on integers
    holds the same values. *)
Definition py_range (a b : Z) : list Z :=
  map (fun i => a + Z.of_nat i) (seq 0 (Z.to_nat (b - a))).

(** [np.zeros(n)] and [np.ones(n)]: a negative dimension raises. *)
Definition np_zeros (n : Z) : result array :=
  if n <? 0 then Raise ValueError else Ok (repeat 0%float (Z.to_nat n)).

Definition np_ones (n : Z) : result array :=
  if n <? 0 then Raise ValueError else Ok (repeat 1%float (Z.to_nat n)).

(** [np.arange(start, stop, step)] on Python floats.  numpy computes the
    length as [ceil((stop - start) / step)] (the division is Python's and
    raises on a zero step), stores [start] and [start + step] and fills the
    rest with [start + i * delta] where [delta = (start + step) - start]. *)
Definition np_arange (start stop step : float) : result array :=
  q <- F64.py_div (stop - start)%float step ;;
  len <- F64.ceil_int q ;;
  let next := (start + step)%float in
  let delta := (next - start)%float in
  Ok (map (fun i => match i with
                    | O => start
                    | S O => next
                    | _ => (start + F64.of_Z (Z.of_nat i) * delta)%float
                    end)
          (seq 0 (Z.to_nat len))).

(** [np.min] and [np.max] of an array: an empty array raises, a NaN wins. *)
Definition np_min (a : array) : result float :=
  match a with
  | [] => Raise ValueError
  | x :: l =>
      Ok (fold_left (fun acc y => if (acc <? y)%float || is_nan acc then acc else y) l x)
  end.

Definition np_max (a : array) : result float :=
  match a with
  | [] => Raise ValueError
  | x :: l =>
      Ok (fold_left (fun acc y => if (y <? acc)%float || is_nan acc then acc else y) l x)
  end.

(** The slice [a[i:j]] for non-negative [i] and [j]. *)
Definition slice {A : Type} (a : list A) (i j : Z) : list A :=
  firstn (Z.to_nat (j - i)) (skipn (Z.to_nat i) a).

(** An elementwise binary operation under numpy's broadcasting of
    one-dimensional operands: equal lengths pair up, a one-element operand
    is repeated, anything else raises. *)
Definition broadcast2 {A B C : Type} (f : A -> B -> C) (a : list A) (b : list B)
  : result (list C) :=
  if (length a =? length b)%nat then Ok (map (fun p => f (fst p) (snd p)) (combine a b))
  else match a, b with
       | [x], _ => Ok (map (f x) b)
       | _, [y] => Ok (map (fun x => f x y) a)
       | _, _ => Raise ValueError
       end.

(** The in-place [out += v]: [out] keeps its shape, so only [v] may be
    broadcast. *)
Definition iadd (out v : array) : result array :=
  if (length out =? length v)%nat
  then Ok (map (fun p => (fst p + snd p)%float) (combine out v))
  else match v with
       | [y] => Ok (map (fun x => (x + y)%float) out)
       | _ => Raise ValueError
       end.

(** [np.fft.fftshift] and [np.fft.ifftshift]: rotations by [n // 2]. *)
Definition fftshift {A : Type} (a : list A) : list A :=
  let k := (length a - length a / 2)%nat in skipn k a ++ firstn k a.

Definition ifftshift {A : Type} (a : list A) : list A :=
  let k := (length a / 2)%nat in skipn k a ++ firstn k a.

(** Zero padding or cropping to [n] points, as [np.fft.fft(a, n)] does
    before transforming. *)
Definition pad_or_crop (a : list complex) (n : nat) : list complex :=
  firstn n a ++ repeat (c_of_float 0) (n - length a).

(** ** The numpy backend *)

Class Numpy : Type := {
  (** [np.sin] on a double *)
  np_sin : float -> float;
  (** [np.log2] on a double *)
  np_log2 : float -> float;
  (** [10 ** x] on a double *)
  np_power10 : float -> float;
  (** [np.exp] on a complex number *)
  np_exp : complex -> complex;
  (** the discrete Fourier transform of a non-empty array, and its inverse *)
  fft_core : list complex -> list complex;
  ifft_core : list complex -> list complex;
  (** the state of a [RandomState] object *)
  rng_state : Type;
  (** [np.random.RandomState(seed)]; numpy rejects some seeds *)
  rk_seed : Z -> result rng_state;
  (** one standard-normal draw, advancing the state *)
  rk_gauss : rng_state -> float * rng_state
}.

(** [np.fft.fft(a)], [np.fft.fft(a, n)] and [np.fft.ifft(a)]: transforming
    zero points raises. *)
Definition np_fft `{Numpy} (a : list complex) : result (list complex) :=
  match a with
  | [] => Raise ValueError
  | _ => Ok (fft_core a)
  end.

Definition np_fft_n `{Numpy} (a : list complex) (n : Z) : result (list complex) :=
  if n <? 1 then Raise ValueError else Ok (fft_core (pad_or_crop a (Z.to_nat n))).

Definition np_ifft `{Numpy} (a : list complex) : result (list complex) :=
  match a with
  | [] => Raise ValueError
  | _ => Ok (ifft_core a)
  end.

(** [rs.randn(k)]: [k] successive draws from the state [rs]; a negative
    count raises.  The state after the call is returned with the samples. *)
Fixpoint gauss_n `{Numpy} (k : nat) (rs : rng_state) : list float * rng_state :=
  match k with
  | O => ([], rs)
  | S k' =>
      let (x, rs1) := rk_gauss rs in
      let (l, rs2) := gauss_n k' rs1 in
      (x :: l, rs2)
  end.

Definition randn `{Numpy} (rs : rng_state) (k : Z) : result (array * rng_state) :=
  if k <? 0 then Raise ValueError else Ok (gauss_n (Z.to_nat k) rs).

(** ** Generators

    An instance of a generator class with the attributes its constructor
    sets. *)

Inductive Generator : Type :=
| BaseGenerator
| ConstantGenerator (_amplitude : float)
| SinusoidGenerator (_amplitude _frequency _phase : float)
| GaussianNoiseGenerator (_base_seed : Z) (_mean _variance : float).

Module Generator.

(** [Generator.generate]: [np.zeros(n)]. *)
Definition generate (n : Z) : result array := np_zeros n.

(** [Generator.get_time_vector]:
    [delta_t = 1.0/r; t_stop = n*delta_t; np.arange(0,t_stop,delta_t) + t]. *)
Definition get_time_vector (r : float) (n : Z) (t : float) : result array :=
  delta_t <- F64.py_div 1 r ;;
  nf <- F64.of_int n ;;
  let t_stop := (nf * delta_t)%float in
  base <- np_arange 0 t_stop delta_t ;;
  Ok (map (fun x => (x + t)%float) base).

End Generator.

Module ConstantGenerator.

(** [self.amplitude * np.ones(n)] *)
Definition generate (amplitude : float) (n : Z) : result array :=
  ones <- np_ones n ;;
  Ok (map (fun x => (amplitude * x)%float) ones).

End ConstantGenerator.

Module SinusoidGenerator.

(** [self.amplitude * np.sin(2.0*pi*self.frequency*tvec + self.phase)] *)
Definition generate `{Numpy} (amplitude frequency phase : float)
  (r : float) (n : Z) (t : float) : result array :=
  tvec <- Generator.get_time_vector r n t ;;
  Ok (map (fun x => (amplitude * np_sin (2 * F64.pi * frequency * x + phase))%float) tvec).

End SinusoidGenerator.

Module GaussianNoiseGenerator.

Definition _samples_per_seed : Z := 2 ^ 20.

Definition _seed_increment_per_generator : Z := 2 ^ 32 - 1.

(** The class attribute [_seed_list] when the module is loaded. *)
Definition initial_seed_list : list Z := [0].

(** [__init__]: the instance takes the last seed of the class-wide
    [_seed_list], and appends the next one to it.  The new instance is
    returned with the updated list. *)
Definition __init__ (mean variance : float) (_seed_list : list Z)
  : result (Generator * list Z) :=
  match rev _seed_list with
  | [] => Raise IndexError
  | this_seed :: _ =>
      Ok (GaussianNoiseGenerator this_seed mean variance,
          _seed_list ++ [this_seed + _seed_increment_per_generator])
  end.

(** The property [base_seed]: the dictionary [{'pos': s, 'neg': s+1}]. *)
Record base_seed_dict : Type := { pos : Z; neg : Z }.

Definition base_seed (_base_seed : Z) : base_seed_dict :=
  {| pos := _base_seed; neg := _base_seed + 1 |}.

Definition _seed_window_to_random_state `{Numpy} (_base_seed : Z) (window : Z)
  : result rng_state :=
  let base_seed := base_seed _base_seed in
  let base_seed := if window <? 0 then neg base_seed - 2 else pos base_seed in
  let seed := base_seed + 2 * Z.abs window in
  rk_seed seed.

(** The loop over the windows strictly between the first and the last:
    each one is seeded afresh and drawn in full. *)
Fixpoint draw_full_windows `{Numpy} (_base_seed : Z) (windows : list Z) (part1 : array)
  : result array :=
  match windows with
  | [] => Ok part1
  | iwindow :: rest =>
      rs <- _seed_window_to_random_state _base_seed iwindow ;;
      let number_of_samples_to_draw := _samples_per_seed in
      d <- randn rs number_of_samples_to_draw ;;
      draw_full_windows _base_seed rest (part1 ++ fst d)
  end.

(** [_draw_samples]: on Python 2 integers [/] is floor division. *)
Definition _draw_samples `{Numpy} (_base_seed : Z) (sample_ends : Z * Z) : result array :=
  let seed_window_start := fst sample_ends / _samples_per_seed in
  let seed_window_end := snd sample_ends / _samples_per_seed in
  if seed_window_start =? seed_window_end then
    rs <- _seed_window_to_random_state _base_seed seed_window_start ;;
    let number_of_garbage_samples :=
      Z.abs (fst sample_ends - seed_window_start * _samples_per_seed) in
    g <- randn rs number_of_garbage_samples ;;
    let rs := snd g in
    let number_of_samples_to_draw := snd sample_ends - fst sample_ends + 1 in
    d <- randn rs number_of_samples_to_draw ;;
    Ok (fst d)
  else
    rs <- _seed_window_to_random_state _base_seed seed_window_start ;;
    let number_of_garbage_samples :=
      Z.abs (fst sample_ends - seed_window_start * _samples_per_seed) in
    g <- randn rs number_of_garbage_samples ;;
    let rs := snd g in
    let number_of_samples_to_draw :=
      Z.abs ((seed_window_start + 1) * _samples_per_seed - fst sample_ends) in
    d <- randn rs number_of_samples_to_draw ;;
    let part1 := fst d in
    part1 <- draw_full_windows _base_seed
               (py_range (seed_window_start + 1) seed_window_end) part1 ;;
    rs <- _seed_window_to_random_state _base_seed seed_window_end ;;
    let number_of_samples_to_draw :=
      Z.abs (snd sample_ends - seed_window_end * _samples_per_seed) + 1 in
    d <- randn rs number_of_samples_to_draw ;;
    let part2 := fst d in
    Ok (part1 ++ part2).

(** The integer sample range [(s_min, s_max)] of a time vector. *)
Definition sample_bounds (tvec : array) (r : float) : result (Z * Z) :=
  lo <- np_min tvec ;;
  s_min <- F64.floor_int (lo * r)%float ;;
  hi <- np_max tvec ;;
  s_max <- F64.ceil_int (hi * r)%float ;;
  Ok (s_min, s_max).

(** [np.argwhere(cond)[0][-1]]: the index of the first true entry. *)
Fixpoint first_true (cond : list bool) (i : Z) : result Z :=
  match cond with
  | [] => Raise IndexError
  | b :: rest => if b then Ok i else first_true rest (i + 1)
  end.

(** The adjustment for a fractional sample period delay, through the FFT. *)
Definition fractional_delay `{Numpy} (samples_all tvec : array) (tvec0 : float)
  (s_min s_max : Z) (r : float) : result array :=
  let size := Z.of_nat (length samples_all) in
  next_power_of_two <- F64.ceil_int (np_log2 (F64.of_Z size)) ;;
  if next_power_of_two <? 0 then Raise TypeError else
  spec <- np_fft_n (map c_of_float samples_all) (2 ^ next_power_of_two) ;;
  let samples_fft := fftshift spec in
  smf <- F64.of_int s_min ;;
  q <- F64.py_div (1 * smf)%float r ;;
  let delta_t := (tvec0 - q)%float in
  let fmax := (r / 2)%float in
  pw <- F64.of_int (2 ^ next_power_of_two) ;;
  fstep <- F64.py_div (1 * r)%float pw ;;
  fvec <- np_arange (- fmax)%float fmax fstep ;;
  let ramp :=
    map (fun f => np_exp (cmul (cmul (cmul (cmul c_j (c_of_float 2)) (c_of_float F64.pi))
                                     (c_of_float f)) (c_of_float delta_t))) fvec in
  samples_fft <- broadcast2 cmul samples_fft ramp ;;
  back <- np_ifft (ifftshift samples_fft) ;;
  let samples_all := slice (map re back) 0 size in
  idx_start <- first_true
                 (map (fun k => (0 <=? tvec0 - F64.of_Z k / r)%float) (py_range s_min s_max)) 0 ;;
  Ok (slice samples_all idx_start (idx_start + Z.of_nat (length tvec))).

(** [GaussianNoiseGenerator.generate] *)
Definition generate `{Numpy} (_base_seed : Z) (mean variance : float)
  (r : float) (n : Z) (t : float) : result array :=
  tvec <- Generator.get_time_vector r n t ;;
  bounds <- sample_bounds tvec r ;;
  let s_min := fst bounds in
  let s_max := snd bounds in
  samples_all <- _draw_samples _base_seed (s_min, s_max) ;;
  samples_all <-
    (if (length tvec <? length samples_all)%nat
     then fractional_delay samples_all tvec (hd 0%float tvec) s_min s_max r
     else Ok samples_all) ;;
  let samples_all := map (fun x => (x * sqrt variance)%float) samples_all in
  let samples_all := map (fun x => (x + mean)%float) samples_all in
  Ok samples_all.

End GaussianNoiseGenerator.

(** [gen.generate(r, n, t)], dispatched on the class of [gen]. *)
Definition generate `{Numpy} (gen : Generator) (r : float) (n : Z) (t : float)
  : result array :=
  match gen with
  | BaseGenerator => Generator.generate n
  | ConstantGenerator a => ConstantGenerator.generate a n
  | SinusoidGenerator a f p => SinusoidGenerator.generate a f p r n t
  | GaussianNoiseGenerator s m v => GaussianNoiseGenerator.generate s m v r n t
  end.

(** ** Signal objects

    An object is its class and the instance attributes that have been
    assigned so far: a slot holds [None] until a constructor or a method
    assigns the attribute, and reading an unassigned attribute raises
    [AttributeError].  The slots are the attributes the signal classes of
    the file use. *)

Inductive class_name : Type :=
| C_Signal
| C_AnalogSignal
| C_TransformedAnalogSignal
| C_CompoundAnalogSignal
| C_DigitalSignal.

(** [issubclass(c, d)] for the hierarchy
    [Signal <- AnalogSignal <- TransformedAnalogSignal <- CompoundAnalogSignal]
    and [Signal <- DigitalSignal]. *)
Definition issubclass (c d : class_name) : bool :=
  match d, c with
  | C_Signal, _ => true
  | C_AnalogSignal, (C_AnalogSignal | C_TransformedAnalogSignal | C_CompoundAnalogSignal) => true
  | C_TransformedAnalogSignal, (C_TransformedAnalogSignal | C_CompoundAnalogSignal) => true
  | C_CompoundAnalogSignal, C_CompoundAnalogSignal => true
  | C_DigitalSignal, C_DigitalSignal => true
  | _, _ => false
  end.

(** A Python value that is either [None] or a float: the argument of a
    transform mutator, and the content of a slope attribute. *)
Inductive value : Type :=
| PyNone
| PyFloat (x : float).

Inductive instance : Type := Instance {
  class_of : class_name;
  _generator : option Generator;
  _time_delay : option float;
  _flat_gain : option float;
  _frequency_magnitude_slope : option value;
  _frequency_phase_slope : option value;
  _components : option (list instance)
}.

(** The Python objects a constructor can be handed. *)
Inductive pyobject : Type :=
| PyValue (v : value)
| PyGenerator (g : Generator)
| PyInstance (o : instance).

Definition isinstance (x : pyobject) (c : class_name) : bool :=
  match x with
  | PyInstance o => issubclass (class_of o) c
  | _ => false
  end.

(** A new object of a class, before its [__init__] runs. *)
Definition new_object (c : class_name) : instance :=
  Instance c None None None None None None.

(** Reading an instance attribute. *)
Definition getattr {A : Type} (slot : option A) : result A :=
  match slot with
  | Some a => Ok a
  | None => Raise AttributeError
  end.

Definition set_generator (self : instance) (g : Generator) : instance :=
  Instance (class_of self) (Some g) (_time_delay self) (_flat_gain self)
    (_frequency_magnitude_slope self) (_frequency_phase_slope self) (_components self).

Definition set_time_delay (self : instance) (d : float) : instance :=
  Instance (class_of self) (_generator self) (Some d) (_flat_gain self)
    (_frequency_magnitude_slope self) (_frequency_phase_slope self) (_components self).

Definition set_flat_gain (self : instance) (g : float) : instance :=
  Instance (class_of self) (_generator self) (_time_delay self) (Some g)
    (_frequency_magnitude_slope self) (_frequency_phase_slope self) (_components self).

Definition set_frequency_magnitude_slope (self : instance) (m : value) : instance :=
  Instance (class_of self) (_generator self) (_time_delay self) (_flat_gain self)
    (Some m) (_frequency_phase_slope self) (_components self).

Definition set_frequency_phase_slope (self : instance) (p : value) : instance :=
  Instance (class_of self) (_generator self) (_time_delay self) (_flat_gain self)
    (_frequency_magnitude_slope self) (Some p) (_components self).

Definition set_components (self : instance) (cs : list instance) : instance :=
  Instance (class_of self) (_generator self) (_time_delay self) (_flat_gain self)
    (_frequency_magnitude_slope self) (_frequency_phase_slope self) (Some cs).

Module AnalogSignal.

(** [self._generator = gen] *)
Definition __init__ (self : instance) (gen : Generator) : instance :=
  set_generator self gen.

(** The call [AnalogSignal(gen)]. *)
Definition new (gen : Generator) : instance :=
  __init__ (new_object C_AnalogSignal) gen.

(** The property [generator], defined by [AnalogSignal]. *)
Definition generator (self : instance) : result Generator :=
  if issubclass (class_of self) C_AnalogSignal
  then getattr (_generator self)
  else Raise AttributeError.

Definition sample `{Numpy} (self : instance) (r : float) (n : Z) (t : float)
  : result array :=
  gen <- generator self ;;
  generate gen r n t.

End AnalogSignal.

Module TransformedAnalogSignal.

(** The four properties, defined by [TransformedAnalogSignal]. *)
Definition time_delay (self : instance) : result float :=
  if issubclass (class_of self) C_TransformedAnalogSignal
  then getattr (_time_delay self)
  else Raise AttributeError.

Definition flat_gain (self : instance) : result float :=
  if issubclass (class_of self) C_TransformedAnalogSignal
  then getattr (_flat_gain self)
  else Raise AttributeError.

Definition frequency_magnitude_slope (self : instance) : result value :=
  if issubclass (class_of self) C_TransformedAnalogSignal
  then getattr (_frequency_magnitude_slope self)
  else Raise AttributeError.

Definition frequency_phase_slope (self : instance) : result value :=
  if issubclass (class_of self) C_TransformedAnalogSignal
  then getattr (_frequency_phase_slope self)
  else Raise AttributeError.

Definition __init__ (self : instance) (analog_signal : pyobject) : result instance :=
  if negb (isinstance analog_signal C_AnalogSignal) then Raise ValueError
  else
    match analog_signal with
    | PyInstance a =>
        self <-
          (if isinstance analog_signal C_TransformedAnalogSignal then
             td <- time_delay a ;;
             let self := set_time_delay self td in
             fg <- flat_gain a ;;
             let self := set_flat_gain self fg in
             ms <- frequency_magnitude_slope a ;;
             let self := set_frequency_magnitude_slope self ms in
             ps <- frequency_phase_slope a ;;
             Ok (set_frequency_phase_slope self ps)
           else
             let self := set_time_delay self 0 in
             let self := set_flat_gain self 1 in
             let self := set_frequency_magnitude_slope self PyNone in
             Ok (set_frequency_phase_slope self PyNone)) ;;
        gen <- AnalogSignal.generator a ;;
        Ok (AnalogSignal.__init__ self gen)
    | _ => Raise ValueError
    end.

(** The call [TransformedAnalogSignal(analog_signal)]. *)
Definition new (analog_signal : pyobject) : result instance :=
  __init__ (new_object C_TransformedAnalogSignal) analog_signal.

Definition is_none (v : value) : bool :=
  match v with PyNone => true | PyFloat _ => false end.

(** The frequency-domain part of [sample]: FFT, slopes, inverse FFT. *)
Definition frequency_round_trip `{Numpy} (self : instance) (td_samples : array)
  (r : float) (n : Z) : result array :=
  spec <- np_fft (map c_of_float td_samples) ;;
  let fd_samples := fftshift spec in
  let fmax := (r / 2)%float in
  nf <- F64.of_int n ;;
  fstep <- F64.py_div (1 * r)%float nf ;;
  fvec <- np_arange (- fmax)%float fmax fstep ;;
  ms <- frequency_magnitude_slope self ;;
  fd_samples <-
    match ms with
    | PyNone => Ok fd_samples
    | PyFloat m =>
        broadcast2 cmul fd_samples
          (map (fun f => c_of_float (np_power10 ((m / 20) * (abs f / 1e9))%float)) fvec)
    end ;;
  ps <- frequency_phase_slope self ;;
  fd_samples <-
    match ps with
    | PyNone => Ok fd_samples
    | PyFloat p =>
        broadcast2 cmul fd_samples
          (map (fun f => np_exp (cmul (cmul (cmul (cmul c_j (c_of_float 2))
                                                  (c_of_float F64.pi))
                                            (c_of_float p)) (c_of_float f))) fvec)
    end ;;
  back <- np_ifft (ifftshift fd_samples) ;;
  Ok (map re back).

Definition sample `{Numpy} (self : instance) (r : float) (n : Z) (t : float)
  : result array :=
  fg <- flat_gain self ;;
  gen <- AnalogSignal.generator self ;;
  td <- time_delay self ;;
  g <- generate gen r n (t + td)%float ;;
  let td_samples := map (fun x => (fg * x)%float) g in
  ms <- frequency_magnitude_slope self ;;
  both_unset <-
    (if is_none ms
     then ps <- frequency_phase_slope self ;; Ok (is_none ps)
     else Ok false) ;;
  if both_unset then Ok td_samples
  else frequency_round_trip self td_samples r n.

(** The mutators change [self] in place: they return the object after the
    call together with the outcome of the call. *)
Definition apply_delay (self : instance) (d : value) : instance * result unit :=
  match time_delay self with
  | Raise e => (self, Raise e)
  | Ok td =>
      match d with
      | PyFloat x => (set_time_delay self (td + x)%float, Ok tt)
      | PyNone => (self, Raise TypeError)
      end
  end.

Definition apply_gain (self : instance) (g : value) : instance * result unit :=
  match flat_gain self with
  | Raise e => (self, Raise e)
  | Ok fg =>
      match g with
      | PyFloat x => (set_flat_gain self (fg * x)%float, Ok tt)
      | PyNone => (self, Raise TypeError)
      end
  end.

(** [if (m == None): pass] does nothing, whatever [m] is. *)
Definition apply_frequency_magnitude_slope (self : instance) (m : value)
  : instance * result unit :=
  match frequency_magnitude_slope self with
  | Raise e => (self, Raise e)
  | Ok PyNone => (set_frequency_magnitude_slope self m, Ok tt)
  | Ok (PyFloat cur) =>
      match m with
      | PyFloat x => (set_frequency_magnitude_slope self (PyFloat (cur + x)%float), Ok tt)
      | PyNone => (self, Raise TypeError)
      end
  end.

Definition apply_frequency_phase_slope (self : instance) (p : value)
  : instance * result unit :=
  match frequency_phase_slope self with
  | Raise e => (self, Raise e)
  | Ok PyNone => (set_frequency_phase_slope self p, Ok tt)
  | Ok (PyFloat cur) =>
      match p with
      | PyFloat x => (set_frequency_phase_slope self (PyFloat (cur * x)%float), Ok tt)
      | PyNone => (self, Raise TypeError)
      end
  end.

End TransformedAnalogSignal.

(** The four transform mutators, as method names. *)
Inductive mutator : Type :=
| m_apply_delay
| m_apply_gain
| m_apply_frequency_magnitude_slope
| m_apply_frequency_phase_slope.

Definition TransformedAnalogSignal_method (m : mutator)
  : instance -> value -> instance * result unit :=
  match m with
  | m_apply_delay => TransformedAnalogSignal.apply_delay
  | m_apply_gain => TransformedAnalogSignal.apply_gain
  | m_apply_frequency_magnitude_slope =>
      TransformedAnalogSignal.apply_frequency_magnitude_slope
  | m_apply_frequency_phase_slope => TransformedAnalogSignal.apply_frequency_phase_slope
  end.

Module CompoundAnalogSignal.

(** The property [components], defined by [CompoundAnalogSignal]. *)
Definition components (self : instance) : result (list instance) :=
  if issubclass (class_of self) C_CompoundAnalogSignal
  then getattr (_components self)
  else Raise AttributeError.

(** The body of the loop [for s in signals] of [__init__]: the components
    to append for one element [s]. *)
Definition components_of_element (s : pyobject) : result (list instance) :=
  if isinstance s C_CompoundAnalogSignal then
    match s with
    | PyInstance c =>
        cs <- components c ;;
        mapM (fun t => TransformedAnalogSignal.new (PyInstance t)) cs
    | _ => Raise AttributeError
    end
  else
    t <- TransformedAnalogSignal.new s ;;
    Ok [t].

Fixpoint add_signals (signals : list pyobject) (_components : list instance)
  : result (list instance) :=
  match signals with
  | [] => Ok _components
  | s :: rest =>
      new <- components_of_element s ;;
      add_signals rest (_components ++ new)
  end.

(** [__init__]: the parent constructor is not called. *)
Definition __init__ (self : instance) (signals : list pyobject) : result instance :=
  cs <- add_signals signals [] ;;
  Ok (set_components self cs).

(** The call [CompoundAnalogSignal(signals)]. *)
Definition new (signals : list pyobject) : result instance :=
  __init__ (new_object C_CompoundAnalogSignal) signals.

(** The loop of [sample]: [for c in self.components: result += c.sample(r,n,t)],
    where [c.sample] is the method of the class of [c]. *)
Fixpoint accumulate (component_sample : instance -> result array)
  (cs : list instance) (acc : array) : result array :=
  match cs with
  | [] => Ok acc
  | c :: rest =>
      v <- component_sample c ;;
      acc <- iadd acc v ;;
      accumulate component_sample rest acc
  end.

(** [sample], given the method [c.sample] of the components. *)
Definition sample_with (component_sample : instance -> result array)
  (self : instance) (n : Z) : result array :=
  zeros <- np_zeros n ;;
  match _components self with
  | None => Raise AttributeError
  | Some cs => accumulate component_sample cs zeros
  end.

(** The loop of a mutator: [for c in self.components: c.apply_...(x)].  The
    components already visited stay changed when a later call raises. *)
Fixpoint broadcast (component_method : instance -> instance * result unit)
  (cs : list instance) : list instance * result unit :=
  match cs with
  | [] => ([], Ok tt)
  | c :: rest =>
      let (c', r) := component_method c in
      match r with
      | Raise e => (c' :: rest, Raise e)
      | Ok _ =>
          let (rest', r') := broadcast component_method rest in
          (c' :: rest', r')
      end
  end.

(** A mutator, given the same method of the components.  The guard
    [if (m == None): pass] of the two slope mutators does nothing. *)
Definition mutate_with (component_method : instance -> instance * result unit)
  (self : instance) : instance * result unit :=
  match _components self with
  | None => (self, Raise AttributeError)
  | Some cs =>
      let (cs', r) := broadcast component_method cs in
      (set_components self cs', r)
  end.

End CompoundAnalogSignal.

(** ** Method calls

    [obj.sample(r, n, t)] and [obj.apply_...(x)] run the method of the class
    of [obj]; [Signal] and [DigitalSignal] have no [sample], and only the
    transformed and compound signals have the mutators. *)

Fixpoint sample `{Numpy} (self : instance) (r : float) (n : Z) (t : float)
  {struct self} : result array :=
  match class_of self with
  | C_AnalogSignal => AnalogSignal.sample self r n t
  | C_TransformedAnalogSignal => TransformedAnalogSignal.sample self r n t
  | C_CompoundAnalogSignal =>
      CompoundAnalogSignal.sample_with (fun c => sample c r n t) self n
  | C_Signal | C_DigitalSignal => Raise AttributeError
  end.

Fixpoint call_mutator (m : mutator) (self : instance) (x : value) {struct self}
  : instance * result unit :=
  match class_of self with
  | C_TransformedAnalogSignal => TransformedAnalogSignal_method m self x
  | C_CompoundAnalogSignal =>
      CompoundAnalogSignal.mutate_with (fun c => call_mutator m c x) self
  | C_Signal | C_AnalogSignal | C_DigitalSignal => (self, Raise AttributeError)
  end.

Definition apply_delay := call_mutator m_apply_delay.
Definition apply_gain := call_mutator m_apply_gain.
Definition apply_frequency_magnitude_slope := call_mutator m_apply_frequency_magnitude_slope.
Definition apply_frequency_phase_slope := call_mutator m_apply_frequency_phase_slope.

(** ** A client session

    The only state shared between generator instances is the class
    attribute [GaussianNoiseGenerator._seed_list].  A session is a sequence
    of constructor calls and [generate] calls on the instances created so
    far, which are named by their position. *)

Record world : Type := {
  _seed_list : list Z;
  generators : list Generator
}.

Definition initial_world : world :=
  {| _seed_list := GaussianNoiseGenerator.initial_seed_list; generators := [] |}.

Inductive action : Type :=
| new_generator (g : Generator)
| new_GaussianNoiseGenerator (mean variance : float)
| call_generate (i : nat) (r : float) (n : Z) (t : float).

(** One action: the world after it, and what a [generate] call returned. *)
Definition step `{Numpy} (a : action) (w : world) : world * option (result array) :=
  match a with
  | new_generator g =>
      ({| _seed_list := _seed_list w; generators := generators w ++ [g] |}, None)
  | new_GaussianNoiseGenerator mean variance =>
      match GaussianNoiseGenerator.__init__ mean variance (_seed_list w) with
      | Ok (g, l) => ({| _seed_list := l; generators := generators w ++ [g] |}, None)
      | Raise _ => (w, None)
      end
  | call_generate i r n t =>
      (w, match nth_error (generators w) i with
          | Some g => Some (generate g r n t)
          | None => None
          end)
  end.

Fixpoint run `{Numpy} (acts : list action) (w : world) : world :=
  match acts with
  | [] => w
  | a :: rest => run rest (fst (step a w))
  end.

(** ** The noise sequence of a generator

    The sample of index [i] of the two-sided sequence of a generator: draw
    number [i mod 2^20] of the stream seeded for window [i / 2^20]. *)

Definition nth_draw `{Numpy} (rs : rng_state) (j : nat) : float :=
  fst (rk_gauss (snd (gauss_n j rs))).

Definition noise_at `{Numpy} (_base_seed : Z) (i : Z) : result float :=
  rs <- GaussianNoiseGenerator._seed_window_to_random_state _base_seed
          (i / GaussianNoiseGenerator._samples_per_seed) ;;
  Ok (nth_draw rs (Z.to_nat (i mod GaussianNoiseGenerator._samples_per_seed))).

(** The samples of indices [a, a+1, ..., a+len-1]. *)
Definition noise_seq `{Numpy} (_base_seed : Z) (a len : Z) : result array :=
  mapM (noise_at _base_seed) (py_range a (a + len)).

(** The time vector of [(r, n, t)] has [n] points and its integer sample
    range is exactly [s, ..., s+n-1]: the request lies on the integer grid,
    and no fractional delay is needed. *)
Definition on_integer_grid (r : float) (n : Z) (t : float) (s : Z) : Prop :=
  exists tvec,
    Generator.get_time_vector r n t = Ok tvec /\
    Z.of_nat (length tvec) = n /\
    GaussianNoiseGenerator.sample_bounds tvec r = Ok (s, s + n - 1).

(** ** Objects built through the constructors and the mutators *)

Inductive constructed : instance -> Prop :=
| constructed_AnalogSignal (g : Generator) :
    constructed (AnalogSignal.new g)
| constructed_TransformedAnalogSignal (a o : instance) :
    constructed a ->
    TransformedAnalogSignal.new (PyInstance a) = Ok o ->
    constructed o
| constructed_CompoundAnalogSignal (l : list instance) (o : instance) :
    (forall a, In a l -> constructed a) ->
    CompoundAnalogSignal.new (map PyInstance l) = Ok o ->
    constructed o
| constructed_mutated (m : mutator) (x : value) (o : instance) :
    constructed o ->
    constructed (fst (call_mutator m o x)).

(** A [TransformedAnalogSignal] object with all its attributes assigned. *)
Definition transformed_object (o : instance) : Prop :=
  class_of o = C_TransformedAnalogSignal /\
  _generator o <> None /\ _time_delay o <> None /\ _flat_gain o <> None /\
  _frequency_magnitude_slope o <> None /\ _frequency_phase_slope o <> None.

(** A [CompoundAnalogSignal] object: only [_components] is assigned, and it
    holds [TransformedAnalogSignal] objects. *)
Definition compound_object (o : instance) : Prop :=
  class_of o = C_CompoundAnalogSignal /\
  _generator o = None /\ _time_delay o = None /\ _flat_gain o = None /\
  _frequency_magnitude_slope o = None /\ _frequency_phase_slope o = None /\
  exists cs, _components o = Some cs /\ Forall transformed_object cs.

Definition well_formed (o : instance) : Prop :=
  match class_of o with
  | C_AnalogSignal => _generator o <> None
  | C_TransformedAnalogSignal => transformed_object o
  | C_CompoundAnalogSignal => compound_object o
  | C_Signal | C_DigitalSignal => False
  end.

(** What an element of the argument of [CompoundAnalogSignal] contributes:
    its own components when it is a compound, itself otherwise. *)
Definition component_count (s : instance) : nat :=
  match class_of s with
  | C_CompoundAnalogSignal =>
      match _components s with Some cs => length cs | None => 0 end
  | _ => 1
  end.

(** The transform state of an object, as the four properties return it. *)
Definition transform_state (o : instance)
  : result float * result float * result value * result value :=
  (TransformedAnalogSignal.time_delay o, TransformedAnalogSignal.flat_gain o,
   TransformedAnalogSignal.frequency_magnitude_slope o,
   TransformedAnalogSignal.frequency_phase_slope o).

(** ** A small backend

    An implementation of [Numpy] on which the model runs by computation: a
    linear congruential generator stands for the Mersenne Twister and the
    transcendental routines are the identity.  No theorem depends on it; it
    serves to evaluate them on concrete inputs. *)

Definition small_backend : Numpy := {|
  np_sin := fun x => x;
  np_log2 := fun x => x;
  np_power10 := fun x => x;
  np_exp := fun c => c;
  fft_core := fun a => a;
  ifft_core := fun a => a;
  rng_state := Z;
  rk_seed := fun seed =>
    if (0 <=? seed) && (seed <? 2 ^ 32) then Ok seed else Raise ValueError;
  rk_gauss := fun s =>
    let s' := (1103515245 * s + 12345) mod 2 ^ 31 in
    (F64.of_Z (s' mod 1000 - 500), s')
|}.

(** ** Auxiliary notions of the proofs *)

(** The mantissa and exponent of [1.0]. *)
Definition SF_one : spec_float := S754_finite false 4503599627370496 (-52).

(** A value of [np.arange(0, stop, step)] is [0.0] or a sum [0.0 + y]. *)
Definition zero_based (x : float) : Prop :=
  x = 0%float \/ exists y, x = (0 + y)%float.

(** The object [TransformedAnalogSignal(AnalogSignal(g))]. *)
Definition fresh (g : Generator) : instance :=
  Instance C_TransformedAnalogSignal (Some g) (Some 0%float) (Some 1%float)
    (Some PyNone) (Some PyNone) None.

(** An object after a mutator call is the same signal: same class, same
    generator, same components attribute. *)
Definition same_signal (k k' : instance) : Prop :=
  class_of k' = class_of k /\ _generator k' = _generator k /\ _components k' = _components k.

(** ** Seeds

    The integer that [_seed_window_to_random_state] hands to
    [np.random.RandomState] for a window: [base_seed + 2*np.abs(window)],
    where [base_seed] is [base_seed['neg'] - 2] for a negative window and
    [base_seed['pos']] otherwise. *)
Definition window_seed (_base_seed window : Z) : Z :=
  let base_seed := GaussianNoiseGenerator.base_seed _base_seed in
  let base_seed :=
    if window <? 0
    then GaussianNoiseGenerator.neg base_seed - 2
    else GaussianNoiseGenerator.pos base_seed in
  base_seed + 2 * Z.abs window.

(** The session [GaussianNoiseGenerator(m, v)] for each [(m, v)] of a list,
    in order. *)
Definition constructions (ps : list (float * float)) : list action :=
  map (fun p => new_GaussianNoiseGenerator (fst p) (snd p)) ps.

(** * Properties *)

(** ** Binary64 arithmetic: multiplication by one, addition of zero *)

Section Binary64.

Local Open Scope float_scope.

Lemma digits2_iter_xO (k : nat) (m : positive) :
  Zpos (digits2_pos (Nat.iter k xO m)) = (Zpos (digits2_pos m) + Z.of_nat k)%Z.
Proof.
  induction k as [|k IH]; [simpl; lia|].
  change (Nat.iter (S k) xO m) with (xO (Nat.iter k xO m)).
  cbn [digits2_pos]. rewrite Pos2Z.inj_succ, IH. lia.
Qed.

Lemma iter_shr_1_exact (k : nat) (m : positive) :
  Nat.iter k shr_1 {| shr_m := Zpos (Nat.iter k xO m); shr_r := false; shr_s := false |}
  = {| shr_m := Zpos m; shr_r := false; shr_s := false |}.
Proof.
  induction k as [|k IH]; [reflexivity|].
  rewrite Nat.iter_succ_r.
  change (Nat.iter (S k) xO m) with (xO (Nat.iter k xO m)).
  cbn [shr_1 orb]. exact IH.
Qed.

Lemma iter_pos_nat (A : Type) (f : A -> A) (p : positive) (x : A) :
  iter_pos f p x = Nat.iter (Pos.to_nat p) f x.
Proof.
  revert x. induction p as [p IH|p IH|]; intros x; cbn [iter_pos].
  - rewrite !IH, Pos2Nat.inj_xI.
    replace (S (2 * Pos.to_nat p))%nat with (Pos.to_nat p + (Pos.to_nat p + 1))%nat by lia.
    rewrite !Nat.iter_add. reflexivity.
  - rewrite !IH, Pos2Nat.inj_xO.
    replace (2 * Pos.to_nat p)%nat with (Pos.to_nat p + Pos.to_nat p)%nat by lia.
    rewrite Nat.iter_add. reflexivity.
  - reflexivity.
Qed.

Lemma pos_iter_nat (A : Type) (f : A -> A) (p : positive) (x : A) :
  Pos.iter f x p = Nat.iter (Pos.to_nat p) f x.
Proof. apply Pos2Nat.inj_iter. Qed.

Lemma Prim2SF_one : Prim2SF 1 = SF_one.
Proof. reflexivity. Qed.

Lemma Prim2SF_zero : Prim2SF 0 = S754_zero false.
Proof. reflexivity. Qed.

(** Rounding the exact product [2^52 * m] at exponent [e - 52] gives back
    the mantissa [m] at exponent [e]. *)
Lemma round_times_one (s : bool) (m : positive) (e : Z) :
  bounded prec emax m e = true ->
  binary_round_aux prec emax s (Zpos (4503599627370496 * m)) (-52 + e) loc_Exact
  = S754_finite s m e.
Proof.
  intros Hv. unfold bounded, canonical_mantissa in Hv.
  apply andb_prop in Hv as [Hc He]. apply Z.eqb_eq in Hc.
  change (4503599627370496 * m)%positive with (Pos.iter xO m 52).
  rewrite pos_iter_nat.
  unfold binary_round_aux. unfold shr_fexp at 1. unfold Zdigits2 at 1.
  rewrite digits2_iter_xO.
  replace (Z.pos (digits2_pos m) + Z.of_nat (Pos.to_nat 52) + (-52 + e))%Z
    with (Z.pos (digits2_pos m) + e)%Z by lia.
  rewrite Hc. replace (e - (-52 + e))%Z with 52%Z by lia.
  cbn [shr shr_record_of_loc]. rewrite iter_pos_nat, iter_shr_1_exact.
  cbn [shr_m loc_of_shr_record round_nearest_even shr_r shr_s].
  unfold shr_fexp. cbn [Zdigits2].
  replace (-52 + e + 52)%Z with e by lia.
  rewrite Hc, Z.sub_diag. cbn [shr shr_record_of_loc shr_m].
  rewrite He. reflexivity.
Qed.

Lemma SFmul_one_l (x : spec_float) :
  valid_binary x = true -> SFmul prec emax SF_one x = x.
Proof.
  intros Hv. destruct x as [s|s| |s m e];
    [destruct s; reflexivity | destruct s; reflexivity | reflexivity | ].
  unfold SFmul, SF_one. rewrite round_times_one by exact Hv. reflexivity.
Qed.

Lemma SFmul_one_r (x : spec_float) :
  valid_binary x = true -> SFmul prec emax x SF_one = x.
Proof.
  intros Hv. destruct x as [s|s| |s m e];
    [destruct s; reflexivity | destruct s; reflexivity | reflexivity | ].
  unfold SFmul, SF_one. rewrite Pos.mul_comm, Z.add_comm, xorb_false_r.
  apply round_times_one. exact Hv.
Qed.

Lemma mul_1_l (x : float) : 1 * x = x.
Proof.
  apply Prim2SF_inj. rewrite mul_spec, Prim2SF_one.
  apply SFmul_one_l, Prim2SF_valid.
Qed.

Lemma mul_1_r (x : float) : x * 1 = x.
Proof.
  apply Prim2SF_inj. rewrite mul_spec, Prim2SF_one.
  apply SFmul_one_r, Prim2SF_valid.
Qed.

(** A sum [0.0 + y] is never the negative zero, so adding [t + 0.0] to it
    is adding [t]. *)
Lemma SFadd_zero_shift (y t : spec_float) :
  SFadd prec emax (SFadd prec emax (S754_zero false) y) (SFadd prec emax t (S754_zero false))
  = SFadd prec emax (SFadd prec emax (S754_zero false) y) t.
Proof.
  destruct y as [[|]|[|]| |[|] my ey]; destruct t as [[|]|[|]| |[|] mt et]; reflexivity.
Qed.

Lemma add_zero_shift (y t : float) : (0 + y) + (t + 0) = (0 + y) + t.
Proof.
  apply Prim2SF_inj. rewrite !add_spec, Prim2SF_zero. apply SFadd_zero_shift.
Qed.

Lemma add_zero_shift_0 (t : float) : 0 + (t + 0) = 0 + t.
Proof.
  apply Prim2SF_inj. rewrite !add_spec, Prim2SF_zero.
  destruct (Prim2SF t) as [[|]|[|]| |[|] mt et]; reflexivity.
Qed.

(** Accumulating [a] then [b] into [0.0] gives [a + b], up to the sign of a
    zero result: [(0.0 + -0.0) + -0.0] is [0.0] and [-0.0 + -0.0] is [-0.0]. *)
Lemma SFadd_zero_acc (a b : spec_float) :
  SFadd prec emax (SFadd prec emax (S754_zero false) a) b = SFadd prec emax a b
  \/ (a = S754_zero true /\ b = S754_zero true).
Proof.
  destruct a as [[|]|[|]| |[|] ma ea]; destruct b as [[|]|[|]| |[|] mb eb];
    (left; reflexivity) || (right; split; reflexivity).
Qed.

Lemma add_zero_acc (a b : float) : F64.same_number ((0 + a) + b) (a + b).
Proof.
  destruct (SFadd_zero_acc (Prim2SF a) (Prim2SF b)) as [E|[Ea Eb]].
  - left. apply Prim2SF_inj. rewrite !add_spec, Prim2SF_zero. exact E.
  - right. rewrite eqb_spec, !add_spec, Prim2SF_zero, Ea, Eb. reflexivity.
Qed.

End Binary64.

(** ** Time vectors *)

Section TimeVector.

Local Open Scope float_scope.

Lemma np_arange_zero_based (stop step : float) (a : array) :
  np_arange 0 stop step = Ok a -> Forall zero_based a.
Proof.
  unfold np_arange.
  destruct (F64.py_div (stop - 0) step) as [q|e]; [|discriminate]. cbn [bind].
  destruct (F64.ceil_int q) as [len|e]; [|discriminate]. cbn [bind].
  intros E. injection E as <-.
  apply Forall_forall. intros x Hx. apply in_map_iff in Hx as [i [<- _]].
  destruct i as [|[|i]]; [left; reflexivity | right; eexists; reflexivity
                         | right; eexists; reflexivity].
Qed.

Lemma zero_based_shift (x t : float) : zero_based x -> x + (t + 0) = x + t.
Proof.
  intros [->|[y ->]]; [apply add_zero_shift_0 | apply add_zero_shift].
Qed.

(** Delaying by [0.0] does not change a time vector, also when [t] is the
    negative zero. *)
Lemma get_time_vector_delay_zero (r : float) (n : Z) (t : float) :
  Generator.get_time_vector r n (t + 0) = Generator.get_time_vector r n t.
Proof.
  unfold Generator.get_time_vector.
  destruct (F64.py_div 1 r) as [delta_t|e]; [|reflexivity]. cbn [bind].
  destruct (F64.of_int n) as [nf|e]; [|reflexivity]. cbn [bind].
  destruct (np_arange 0 (nf * delta_t) delta_t) as [base|e] eqn:E; [|reflexivity].
  cbn [bind]. f_equal. apply np_arange_zero_based in E.
  apply map_ext_in. intros x Hx. apply zero_based_shift.
  rewrite Forall_forall in E. apply E, Hx.
Qed.

End TimeVector.

Lemma get_time_vector_10_3 :
  Generator.get_time_vector 10 3 0
  = Ok [0%float; 0x1.999999999999ap-4%float; 0x1.999999999999ap-3%float;
        0x1.3333333333334p-2%float].
Proof. vm_compute. reflexivity. Qed.

(** C9, on the code: [get_time_vector(10.0, 3, 0.0)] returns four values,
    not three.  [3 * 0.1] is [0.30000000000000004] in binary64 and
    [0.30000000000000004 / 0.1] is [3.0000000000000004], so [np.arange]
    computes the length [ceil(3.0000000000000004) = 4]; the values are
    [0.0, 0.1, 0.2, 0.30000000000000004]. *)
Theorem get_time_vector_10_3_has_four_values :
  Generator.get_time_vector 10 3 0
  = Ok [0%float; 0x1.999999999999ap-4%float; 0x1.999999999999ap-3%float;
        0x1.3333333333334p-2%float]
  /\ (exists tvec, Generator.get_time_vector 10 3 0 = Ok tvec /\ length tvec = 4%nat).
Proof.
  split; [exact get_time_vector_10_3|].
  eexists. split; [exact get_time_vector_10_3 | reflexivity].
Qed.

(** ** The error monad and lists *)

Lemma bind_assoc (A B C : Type) (m : result A) (f : A -> result B) (g : B -> result C) :
  bind (bind m f) g = bind m (fun x => bind (f x) g).
Proof. destruct m; reflexivity. Qed.

Lemma bind_ret_r (A : Type) (m : result A) : bind m Ok = m.
Proof. destruct m; reflexivity. Qed.

Lemma bind_ext (A B : Type) (m : result A) (f g : A -> result B) :
  (forall x, f x = g x) -> bind m f = bind m g.
Proof. intros E. destruct m; [apply E | reflexivity]. Qed.

Lemma mapM_ok_map (A B : Type) (f : A -> result B) (g : A -> B) (l : list A) :
  (forall x, In x l -> f x = Ok (g x)) -> mapM f l = Ok (map g l).
Proof.
  induction l as [|a l IH]; intros Hf; [reflexivity|].
  cbn [mapM map]. rewrite (Hf a (or_introl eq_refl)). cbn [bind].
  rewrite IH by (intros x Hx; apply Hf; right; exact Hx). reflexivity.
Qed.

Lemma mapM_raise (A B : Type) (f : A -> result B) (e : exn) (a : A) (l : list A) :
  f a = Raise e -> mapM f (a :: l) = Raise e.
Proof. intros E. cbn [mapM]. rewrite E. reflexivity. Qed.

Lemma mapM_app (A B : Type) (f : A -> result B) (l1 l2 : list A) :
  mapM f (l1 ++ l2) = (x <- mapM f l1 ;; y <- mapM f l2 ;; Ok (x ++ y)).
Proof.
  induction l1 as [|a l1 IH]; cbn [mapM app bind].
  - destruct (mapM f l2); reflexivity.
  - destruct (f a) as [b|e]; [|reflexivity]. cbn [bind]. rewrite IH.
    destruct (mapM f l1) as [x|e]; [|reflexivity]. cbn [bind].
    destruct (mapM f l2) as [y|e]; reflexivity.
Qed.

Lemma mapM_length (A B : Type) (f : A -> result B) (l : list A) (l' : list B) :
  mapM f l = Ok l' -> length l' = length l.
Proof.
  revert l'. induction l as [|a l IH]; intros l'; cbn [mapM].
  - intros E. injection E as <-. reflexivity.
  - destruct (f a) as [b|e]; [|discriminate]. cbn [bind].
    destruct (mapM f l) as [bs|e]; [|discriminate]. cbn [bind].
    intros E. injection E as <-. cbn [length]. f_equal. apply IH. reflexivity.
Qed.

Lemma seq_map_add (a n : nat) : seq a n = map (Nat.add a) (seq 0 n).
Proof.
  revert a. induction n as [|n IH]; intros a; [reflexivity|].
  cbn [seq map]. rewrite Nat.add_0_r. f_equal.
  rewrite (IH (S a)), (IH 1%nat), map_map. apply map_ext. intros i. lia.
Qed.

Lemma py_range_nil (a : Z) : py_range a a = [].
Proof. unfold py_range. rewrite Z.sub_diag. reflexivity. Qed.

Lemma py_range_cons (a b : Z) : a < b -> py_range a b = a :: py_range (a + 1) b.
Proof.
  intros Hab. unfold py_range.
  replace (Z.to_nat (b - a)) with (S (Z.to_nat (b - (a + 1)))) by lia.
  cbn [seq map]. rewrite Z.add_0_r. f_equal.
  rewrite (seq_map_add 1), map_map. apply map_ext. intros i. lia.
Qed.

Lemma py_range_app (a b c : Z) :
  a <= b -> b <= c -> py_range a c = py_range a b ++ py_range b c.
Proof.
  intros Hab Hbc. unfold py_range.
  replace (Z.to_nat (c - a)) with (Z.to_nat (b - a) + Z.to_nat (c - b))%nat by lia.
  rewrite seq_app, map_app. f_equal.
  rewrite (seq_map_add (0 + Z.to_nat (b - a))), map_map. apply map_ext. intros i. lia.
Qed.

Lemma py_range_length (a b : Z) : length (py_range a b) = Z.to_nat (b - a).
Proof. unfold py_range. rewrite length_map, length_seq. reflexivity. Qed.

(** ** Window-addressed sampling *)

Section Noise.

Context `{Numpy}.

Import GaussianNoiseGenerator.

Local Abbreviation W := _samples_per_seed.

Lemma W_pos : 0 < W.
Proof. reflexivity. Qed.

Lemma fst_gauss_n_S (k : nat) (rs : rng_state) :
  fst (gauss_n (S k) rs) = fst (rk_gauss rs) :: fst (gauss_n k (snd (rk_gauss rs))).
Proof.
  cbn [gauss_n]. destruct (rk_gauss rs) as [x rs1]. cbn [fst snd].
  destruct (gauss_n k rs1). reflexivity.
Qed.

Lemma snd_gauss_n_S (k : nat) (rs : rng_state) :
  snd (gauss_n (S k) rs) = snd (gauss_n k (snd (rk_gauss rs))).
Proof.
  cbn [gauss_n]. destruct (rk_gauss rs) as [x rs1]. cbn [fst snd].
  destruct (gauss_n k rs1). reflexivity.
Qed.

Lemma snd_gauss_n_step (k : nat) (rs : rng_state) :
  snd (gauss_n (S k) rs) = snd (rk_gauss (snd (gauss_n k rs))).
Proof.
  revert rs. induction k as [|k IH]; intros rs.
  - rewrite snd_gauss_n_S. reflexivity.
  - rewrite snd_gauss_n_S, IH, snd_gauss_n_S. reflexivity.
Qed.

(** Drawing [k] samples after [j] have been drawn gives the draws
    [j, ..., j+k-1] of the stream. *)
Lemma gauss_n_after (k j : nat) (rs : rng_state) :
  fst (gauss_n k (snd (gauss_n j rs))) = map (nth_draw rs) (seq j k).
Proof.
  revert j. induction k as [|k IH]; intros j; [reflexivity|].
  rewrite fst_gauss_n_S. cbn [seq map]. f_equal.
  rewrite <- snd_gauss_n_step. apply IH.
Qed.

Lemma gauss_n_length (k : nat) (rs : rng_state) : length (fst (gauss_n k rs)) = k.
Proof.
  revert rs. induction k as [|k IH]; intros rs; [reflexivity|].
  rewrite fst_gauss_n_S. cbn [length]. f_equal. apply IH.
Qed.

(** Seed a window, discard [off] draws, keep the next [len]. *)
Lemma draw_after_garbage (b w off len : Z) (K : array -> result array) :
  0 <= off -> 0 <= len ->
  (rs <- _seed_window_to_random_state b w ;;
   g <- randn rs off ;;
   d <- randn (snd g) len ;;
   K (fst d))
  = (rs <- _seed_window_to_random_state b w ;;
     K (map (nth_draw rs) (seq (Z.to_nat off) (Z.to_nat len)))).
Proof.
  intros Hoff Hlen. apply bind_ext. intros rs. unfold randn.
  destruct (Z.ltb_spec off 0); [lia|]. cbn [bind].
  destruct (Z.ltb_spec len 0); [lia|]. cbn [bind].
  rewrite gauss_n_after. reflexivity.
Qed.

Lemma draw_from_start (b w len : Z) (K : array -> result array) :
  0 <= len ->
  (rs <- _seed_window_to_random_state b w ;;
   d <- randn rs len ;;
   K (fst d))
  = (rs <- _seed_window_to_random_state b w ;;
     K (map (nth_draw rs) (seq 0 (Z.to_nat len)))).
Proof.
  intros Hlen. apply bind_ext. intros rs. unfold randn.
  destruct (Z.ltb_spec len 0); [lia|]. cbn [bind].
  rewrite <- (gauss_n_after (Z.to_nat len) 0 rs). reflexivity.
Qed.

Lemma noise_at_in_window (b w j : Z) :
  0 <= j < W ->
  noise_at b (w * W + j)
  = (rs <- _seed_window_to_random_state b w ;; Ok (nth_draw rs (Z.to_nat j))).
Proof.
  intros Hj. unfold noise_at.
  replace ((w * W + j) / W) with w
    by (apply Z.div_unique with (r := j); [left; lia | lia]).
  replace ((w * W + j) mod W) with j
    by (apply Z.mod_unique with (q := w); [left; lia | lia]).
  reflexivity.
Qed.

(** The samples of a range that lies in one window. *)
Lemma noise_seq_window (b w off len : Z) :
  0 <= off -> 0 < len -> off + len <= W ->
  noise_seq b (w * W + off) len
  = (rs <- _seed_window_to_random_state b w ;;
     Ok (map (nth_draw rs) (seq (Z.to_nat off) (Z.to_nat len)))).
Proof.
  intros Hoff Hlen Hfit. unfold noise_seq.
  destruct (_seed_window_to_random_state b w) as [rs|e] eqn:Eseed; cbn [bind].
  - rewrite mapM_ok_map with (g := fun i => nth_draw rs (Z.to_nat (i - w * W))).
    + f_equal. unfold py_range. rewrite map_map.
      replace (w * W + off + len - (w * W + off)) with len by lia.
      rewrite (seq_map_add (Z.to_nat off)), map_map.
      apply map_ext. intros i. f_equal. lia.
    + intros i Hi. unfold py_range in Hi. apply in_map_iff in Hi as [k [<- Hk]].
      apply in_seq in Hk.
      replace (w * W + off + Z.of_nat k) with (w * W + (off + Z.of_nat k)) by lia.
      rewrite noise_at_in_window by lia. rewrite Eseed. cbn [bind].
      do 2 f_equal. lia.
  - rewrite py_range_cons by lia. apply mapM_raise.
    rewrite noise_at_in_window by lia. rewrite Eseed. reflexivity.
Qed.

Lemma noise_seq_app (b a l1 l2 : Z) :
  0 <= l1 -> 0 <= l2 ->
  noise_seq b a (l1 + l2)
  = (x <- noise_seq b a l1 ;; y <- noise_seq b (a + l1) l2 ;; Ok (x ++ y)).
Proof.
  intros H1 H2. unfold noise_seq.
  rewrite (@py_range_app a (a + l1) (a + (l1 + l2))) by lia.
  rewrite mapM_app. replace (a + l1 + l2) with (a + (l1 + l2)) by lia. reflexivity.
Qed.

Lemma noise_seq_nil (b a : Z) : noise_seq b a 0 = Ok [].
Proof. unfold noise_seq. rewrite Z.add_0_r, py_range_nil. reflexivity. Qed.

Lemma noise_seq_length (b a len : Z) (l : array) :
  noise_seq b a len = Ok l -> length l = Z.to_nat len.
Proof.
  unfold noise_seq. intros E. apply mapM_length in E.
  rewrite E, py_range_length. f_equal. lia.
Qed.

(** The first window of a request, in continuation form. *)
Lemma first_window (b w off len : Z) (K : array -> result array) :
  0 <= off -> 0 < len -> off + len <= W ->
  (rs <- _seed_window_to_random_state b w ;;
   g <- randn rs off ;;
   d <- randn (snd g) len ;;
   K (fst d))
  = (l <- noise_seq b (w * W + off) len ;; K l).
Proof.
  intros Hoff Hlen Hfit.
  rewrite draw_after_garbage by lia.
  rewrite noise_seq_window by lia. rewrite bind_assoc. reflexivity.
Qed.

(** A window drawn from its start. *)
Lemma window_from_start (b w len : Z) (K : array -> result array) :
  0 < len -> len <= W ->
  (rs <- _seed_window_to_random_state b w ;;
   d <- randn rs len ;;
   K (fst d))
  = (l <- noise_seq b (w * W) len ;; K l).
Proof.
  intros Hlen Hfit.
  rewrite draw_from_start by lia.
  replace (w * W) with (w * W + 0) by lia.
  rewrite noise_seq_window by lia. rewrite bind_assoc. reflexivity.
Qed.

(** The windows drawn in full. *)
Lemma draw_full_windows_spec (b : Z) (k : nat) (s : Z) (acc : array) :
  draw_full_windows b (py_range s (s + Z.of_nat k)) acc
  = (l <- noise_seq b (s * W) (Z.of_nat k * W) ;; Ok (acc ++ l)).
Proof.
  revert s acc. induction k as [|k IH]; intros s acc.
  - rewrite Z.add_0_r, py_range_nil. cbn [draw_full_windows Z.of_nat].
    rewrite Z.mul_0_l, noise_seq_nil. cbn [bind]. rewrite app_nil_r. reflexivity.
  - rewrite py_range_cons by lia. cbn [draw_full_windows].
    rewrite (@window_from_start b s W (fun l =>
               draw_full_windows b (py_range (s + 1) (s + Z.of_nat (S k))) (acc ++ l)))
      by (pose proof W_pos; lia).
    replace (Z.of_nat (S k) * W) with (W + Z.of_nat k * W) by lia.
    pose proof W_pos as HW.
    rewrite noise_seq_app by nia. rewrite bind_assoc.
    apply bind_ext. intros l1.
    replace (s + Z.of_nat (S k)) with ((s + 1) + Z.of_nat k) by lia.
    rewrite IH. rewrite bind_assoc.
    replace ((s + 1) * W) with (s * W + W) by lia.
    apply bind_ext. intros l2. cbn [bind]. rewrite app_assoc. reflexivity.
Qed.

(** [_draw_samples] returns the samples of the requested indices. *)
Lemma _draw_samples_spec (b a len : Z) :
  0 < len -> _draw_samples b (a, a + len - 1) = noise_seq b a len.
Proof.
  intros Hlen. pose proof W_pos as HW.
  unfold _draw_samples. cbn [fst snd].
  pose proof (Z.div_mod a W ltac:(lia)) as Ea.
  pose proof (Z.mod_pos_bound a W HW) as Ba.
  pose proof (Z.div_mod (a + len - 1) W ltac:(lia)) as Eb.
  pose proof (Z.mod_pos_bound (a + len - 1) W HW) as Bb.
  set (ws := a / W) in *. set (we := (a + len - 1) / W) in *.
  set (ra := a mod W) in *. set (rb := (a + len - 1) mod W) in *.
  replace (a - ws * W) with ra by lia.
  rewrite (Z.abs_eq ra) by lia.
  destruct (Z.eqb_spec ws we) as [Ew|Ew].
  - replace (a + len - 1 - a + 1) with len by lia.
    rewrite (@first_window b ws ra len Ok) by nia.
    rewrite bind_ret_r. f_equal. lia.
  - assert (Hlt : ws < we) by nia.
    replace ((ws + 1) * W - a) with (W - ra) by lia.
    rewrite (Z.abs_eq (W - ra)) by lia.
    replace (a + len - 1 - we * W) with rb by lia.
    rewrite (Z.abs_eq rb) by lia.
    rewrite (@first_window b ws ra (W - ra) (fun part1 =>
               part1 <- draw_full_windows b (py_range (ws + 1) we) part1 ;;
               rs <- _seed_window_to_random_state b we ;;
               d <- randn rs (rb + 1) ;;
               Ok (part1 ++ fst d))) by lia.
    replace (ws * W + ra) with a by lia.
    replace len with ((W - ra) + ((Z.of_nat (Z.to_nat (we - ws - 1)) * W) + (rb + 1))) at 1
      by nia.
    rewrite noise_seq_app by nia.
    apply bind_ext. intros l1. cbv beta.
    replace we with ((ws + 1) + Z.of_nat (Z.to_nat (we - ws - 1))) at 1 by lia.
    rewrite draw_full_windows_spec, bind_assoc.
    rewrite noise_seq_app by nia.
    replace (a + (W - ra)) with ((ws + 1) * W) by lia.
    rewrite bind_assoc.
    apply bind_ext. intros l2. cbn [bind].
    rewrite (@window_from_start b we (rb + 1) (fun l => Ok ((l1 ++ l2) ++ l))) by lia.
    replace ((ws + 1) * W + Z.of_nat (Z.to_nat (we - ws - 1)) * W) with (we * W) by nia.
    rewrite bind_assoc.
    apply bind_ext. intros l3. cbn [bind]. rewrite app_assoc. reflexivity.
Qed.

End Noise.

(** ** GaussianNoiseGenerator.generate *)

Section Generate.

Context `{Numpy}.

(** On the integer grid [generate] returns the rescaled samples of the
    requested indices; the fractional-delay branch is not taken. *)
Lemma generate_on_grid (b : Z) (mean variance r : float) (n : Z) (t : float) (s : Z) :
  0 < n -> on_integer_grid r n t s ->
  GaussianNoiseGenerator.generate b mean variance r n t
  = (l <- noise_seq b s n ;;
     Ok (map (fun x => (x + mean)%float) (map (fun x => (x * sqrt variance)%float) l))).
Proof.
  intros Hn [tvec [Et [El Eb]]].
  unfold GaussianNoiseGenerator.generate. rewrite Et. cbn [bind].
  rewrite Eb. cbn [bind fst snd].
  rewrite _draw_samples_spec by exact Hn.
  destruct (noise_seq b s n) as [l|e] eqn:El'; [|reflexivity]. cbn [bind].
  apply noise_seq_length in El'.
  destruct (Nat.ltb_spec (length tvec) (length l)); [lia|]. reflexivity.
Qed.

End Generate.

(** Continuity across window boundaries: for a fixed generator instance and
    rate, when the time vectors of the requests [(r, k, t)], [(r, k, t')] and
    [(r, 2k, t)] have the requested counts and the index ranges [s..s+k-1],
    [s+k..s+2k-1] and [s..s+2k-1], the samples of the first two requests,
    concatenated, are the samples of the third.  The index [s] and the split
    point are arbitrary: the ranges may cross any number of 2^20-sample
    window boundaries, on either side of index 0.  The condition is on the
    binary64 time vectors: it fails for requests whose time vector has one
    value more than the count, such as [(7.0, 59, 0.0)]. *)
Theorem window_boundary_continuity `{Numpy} (b : Z) (mean variance r : float)
  (k : Z) (t t' : float) (s : Z) :
  0 < k ->
  on_integer_grid r k t s ->
  on_integer_grid r k t' (s + k) ->
  on_integer_grid r (2 * k) t s ->
  generate (GaussianNoiseGenerator b mean variance) r (2 * k) t
  = (x <- generate (GaussianNoiseGenerator b mean variance) r k t ;;
     y <- generate (GaussianNoiseGenerator b mean variance) r k t' ;;
     Ok (x ++ y)).
Proof.
  intros Hk G1 G2 G3. cbn [generate].
  assert (Hk2 : 0 < 2 * k) by lia.
  rewrite (generate_on_grid b mean variance Hk2 G3).
  rewrite (generate_on_grid b mean variance Hk G1).
  rewrite (generate_on_grid b mean variance Hk G2).
  replace (2 * k) with (k + k) by lia.
  rewrite noise_seq_app by lia.
  destruct (noise_seq b s k) as [l1|e]; [|reflexivity]. cbn [bind].
  destruct (noise_seq b (s + k) k) as [l2|e]; [|reflexivity]. cbn [bind].
  rewrite !map_app. reflexivity.
Qed.

(** The requests [(1.0, 4, 1048570.0)] and [(1.0, 4, 1048574.0)]: the second
    one crosses the boundary between windows 0 and 1 at index 1048576. *)
Lemma window_boundary_continuity_witness :
  @generate small_backend (GaussianNoiseGenerator 0 0 1) 1 (2 * 4) 1048570
  = (x <- @generate small_backend (GaussianNoiseGenerator 0 0 1) 1 4 1048570 ;;
     y <- @generate small_backend (GaussianNoiseGenerator 0 0 1) 1 4 1048574 ;;
     Ok (x ++ y)).
Proof.
  apply (@window_boundary_continuity small_backend 0 0 1 1 4 1048570 1048574 1048570).
  - lia.
  - eexists. split; [vm_compute; reflexivity|]. split; vm_compute; reflexivity.
  - eexists. split; [vm_compute; reflexivity|]. split; vm_compute; reflexivity.
  - eexists. split; [vm_compute; reflexivity|]. split; vm_compute; reflexivity.
Defined.

(** ** Sessions *)

Lemma step_generators `{Numpy} (a : action) (w : world) :
  exists l, generators (fst (step a w)) = generators w ++ l.
Proof.
  destruct a as [g|mean variance|i r n t]; cbn [step].
  - exists [g]. reflexivity.
  - destruct (GaussianNoiseGenerator.__init__ mean variance (_seed_list w)) as [[g l]|e].
    + exists [g]. reflexivity.
    + exists []. symmetry. apply app_nil_r.
  - exists []. symmetry. apply app_nil_r.
Qed.

Lemma run_generators `{Numpy} (acts : list action) (w : world) :
  exists l, generators (run acts w) = generators w ++ l.
Proof.
  revert w. induction acts as [|a acts IH]; intros w; cbn [run].
  - exists []. symmetry. apply app_nil_r.
  - destruct (IH (fst (step a w))) as [l2 E2].
    destruct (step_generators a w) as [l1 E1].
    exists (l1 ++ l2). rewrite E2, E1, app_assoc. reflexivity.
Qed.

(** An instance keeps its position and its attributes through a session. *)
Lemma run_keeps_instance `{Numpy} (acts : list action) (w : world) (i : nat) (g : Generator) :
  nth_error (generators w) i = Some g ->
  nth_error (generators (run acts w)) i = Some g.
Proof.
  intros E. destruct (run_generators acts w) as [l ->].
  rewrite nth_error_app1; [exact E|]. apply nth_error_Some. rewrite E. discriminate.
Qed.

(** C1: two calls of [generate] with the same arguments on the same
    generator instance return the same result, whatever the session does
    between them (constructing generators, which advances the class-wide
    seed list, and calling [generate] on any instance); the result is the
    value of [generate] on the attributes of the instance and the arguments,
    for every rate, count and time offset, those that take the
    fractional-delay branch included. *)
Theorem generate_deterministic `{Numpy} (w : world) (between : list action)
  (i : nat) (g : Generator) (r : float) (n : Z) (t : float) :
  nth_error (generators w) i = Some g ->
  let (w1, first) := step (call_generate i r n t) w in
  let (w2, second) := step (call_generate i r n t) (run between w1) in
  first = second /\ first = Some (generate g r n t).
Proof.
  intros E. cbn [step]. rewrite (run_keeps_instance between w i E), E.
  split; reflexivity.
Qed.

Lemma generate_deterministic_witness :
  let w := @run small_backend [new_GaussianNoiseGenerator 0 1] initial_world in
  nth_error (generators w) 0 = Some (GaussianNoiseGenerator 0 0 1) /\
  (let (w1, first) := @step small_backend (call_generate 0 1 2 0.5) w in
   let (w2, second) :=
     @step small_backend (call_generate 0 1 2 0.5)
       (@run small_backend [new_GaussianNoiseGenerator 0 1; call_generate 1 1 3 0] w1) in
   first = second /\
   first = Some (@generate small_backend (GaussianNoiseGenerator 0 0 1) 1 2 0.5)).
Proof.
  split; [reflexivity|].
  apply (@generate_deterministic small_backend
           (@run small_backend [new_GaussianNoiseGenerator 0 1] initial_world)
           [new_GaussianNoiseGenerator 0 1; call_generate 1 1 3 0]
           0 (GaussianNoiseGenerator 0 0 1) 1 2 0.5).
  reflexivity.
Defined.

(** The request [(1.0, 2, 0.5)] of the lemma above is off the integer grid:
    its time vector has two points and its index range [0..2] has three, so
    [generate] takes the fractional-delay branch. *)
Example half_sample_offset_bounds :
  (tvec <- Generator.get_time_vector 1 2 0.5 ;;
   bounds <- GaussianNoiseGenerator.sample_bounds tvec 1 ;;
   Ok (length tvec, bounds))
  = Ok (2%nat, (0, 2)).
Proof. vm_compute. reflexivity. Qed.

(** ** Transform state *)

Lemma transformed_object_class (o : instance) :
  transformed_object o -> issubclass (class_of o) C_TransformedAnalogSignal = true.
Proof. intros [-> _]. reflexivity. Qed.

(** The attributes of a [TransformedAnalogSignal] object, read back. *)
Lemma transformed_object_inv (o : instance) :
  transformed_object o ->
  exists g td fg ms ps cs,
    o = Instance C_TransformedAnalogSignal (Some g) (Some td) (Some fg) (Some ms) (Some ps) cs.
Proof.
  destruct o as [c [g|] [td|] [fg|] [ms|] [ps|] cs]; unfold transformed_object; cbn;
    intros (Hc & Hg & Htd & Hfg & Hms & Hps); try congruence.
  subst c. exists g, td, fg, ms, ps, cs. reflexivity.
Qed.

(** C3, on the code: on a freshly constructed [TransformedAnalogSignal],
    [apply_delay(None)] and [apply_gain(None)] raise [TypeError]: the sum
    [self.time_delay + None] and the product [self.flat_gain * None] are
    evaluated. *)
Lemma apply_delay_None_raises :
  let o := Instance C_TransformedAnalogSignal (Some BaseGenerator)
             (Some 0%float) (Some 1%float) (Some PyNone) (Some PyNone) None in
  TransformedAnalogSignal.new (PyInstance (AnalogSignal.new BaseGenerator)) = Ok o /\
  TransformedAnalogSignal.apply_delay o PyNone = (o, Raise TypeError) /\
  TransformedAnalogSignal.apply_gain o PyNone = (o, Raise TypeError).
Proof. repeat split. Qed.

(** C3, as the code has it: with [None], [apply_delay] and [apply_gain]
    raise [TypeError] and leave the object unchanged;
    [apply_frequency_magnitude_slope] and [apply_frequency_phase_slope]
    return without raising and leave the object, hence its four transform
    fields, unchanged when the slope they combine with is unset. *)
Theorem mutators_on_None (o : instance) :
  transformed_object o ->
  TransformedAnalogSignal.apply_delay o PyNone = (o, Raise TypeError) /\
  TransformedAnalogSignal.apply_gain o PyNone = (o, Raise TypeError) /\
  (TransformedAnalogSignal.frequency_magnitude_slope o = Ok PyNone ->
   TransformedAnalogSignal.apply_frequency_magnitude_slope o PyNone = (o, Ok tt)) /\
  (TransformedAnalogSignal.frequency_phase_slope o = Ok PyNone ->
   TransformedAnalogSignal.apply_frequency_phase_slope o PyNone = (o, Ok tt)).
Proof.
  intros Ho. destruct (transformed_object_inv Ho) as (g & td & fg & ms & ps & cs & ->).
  repeat split.
  - cbn. intros E. injection E as ->. reflexivity.
  - cbn. intros E. injection E as ->. reflexivity.
Qed.

Lemma mutators_on_None_witness :
  let o := Instance C_TransformedAnalogSignal (Some BaseGenerator)
             (Some 0%float) (Some 1%float) (Some PyNone) (Some PyNone) None in
  transformed_object o /\
  TransformedAnalogSignal.apply_delay o PyNone = (o, Raise TypeError) /\
  TransformedAnalogSignal.apply_gain o PyNone = (o, Raise TypeError) /\
  (TransformedAnalogSignal.frequency_magnitude_slope o = Ok PyNone ->
   TransformedAnalogSignal.apply_frequency_magnitude_slope o PyNone = (o, Ok tt)) /\
  (TransformedAnalogSignal.frequency_phase_slope o = Ok PyNone ->
   TransformedAnalogSignal.apply_frequency_phase_slope o PyNone = (o, Ok tt)).
Proof.
  assert (Ho : transformed_object
                 (Instance C_TransformedAnalogSignal (Some BaseGenerator)
                    (Some 0%float) (Some 1%float) (Some PyNone) (Some PyNone) None))
    by (repeat split; discriminate).
  split; [exact Ho|]. apply (mutators_on_None Ho).
Defined.

(** C4: from the state where both slopes are unset,
    [apply_frequency_magnitude_slope(m1)] then
    [apply_frequency_magnitude_slope(m2)] leave the magnitude slope equal to
    [m1 + m2], and [apply_frequency_phase_slope(p1)] then
    [apply_frequency_phase_slope(p2)] leave the phase slope equal to
    [p1 * p2]; none of the four calls raises. *)
Theorem slope_composition (o : instance) (m1 m2 p1 p2 : float) :
  transformed_object o ->
  TransformedAnalogSignal.frequency_magnitude_slope o = Ok PyNone ->
  TransformedAnalogSignal.frequency_phase_slope o = Ok PyNone ->
  let (om1, rm1) := TransformedAnalogSignal.apply_frequency_magnitude_slope o (PyFloat m1) in
  let (om2, rm2) := TransformedAnalogSignal.apply_frequency_magnitude_slope om1 (PyFloat m2) in
  let (op1, rp1) := TransformedAnalogSignal.apply_frequency_phase_slope o (PyFloat p1) in
  let (op2, rp2) := TransformedAnalogSignal.apply_frequency_phase_slope op1 (PyFloat p2) in
  (rm1 = Ok tt /\ rm2 = Ok tt /\ rp1 = Ok tt /\ rp2 = Ok tt) /\
  TransformedAnalogSignal.frequency_magnitude_slope om2 = Ok (PyFloat (m1 + m2)%float) /\
  TransformedAnalogSignal.frequency_phase_slope op2 = Ok (PyFloat (p1 * p2)%float).
Proof.
  intros Ho. destruct (transformed_object_inv Ho) as (g & td & fg & ms & ps & cs & ->).
  cbn. intros Em Ep. injection Em as ->. injection Ep as ->. cbn.
  repeat split.
Qed.

Lemma slope_composition_witness :
  let o := Instance C_TransformedAnalogSignal (Some BaseGenerator)
             (Some 0%float) (Some 1%float) (Some PyNone) (Some PyNone) None in
  transformed_object o /\
  TransformedAnalogSignal.frequency_magnitude_slope o = Ok PyNone /\
  TransformedAnalogSignal.frequency_phase_slope o = Ok PyNone /\
  (let (om1, rm1) := TransformedAnalogSignal.apply_frequency_magnitude_slope o (PyFloat 2) in
   let (om2, rm2) := TransformedAnalogSignal.apply_frequency_magnitude_slope om1 (PyFloat 3) in
   let (op1, rp1) := TransformedAnalogSignal.apply_frequency_phase_slope o (PyFloat 2) in
   let (op2, rp2) := TransformedAnalogSignal.apply_frequency_phase_slope op1 (PyFloat 3) in
   (rm1 = Ok tt /\ rm2 = Ok tt /\ rp1 = Ok tt /\ rp2 = Ok tt) /\
   TransformedAnalogSignal.frequency_magnitude_slope om2 = Ok (PyFloat (2 + 3)%float) /\
   TransformedAnalogSignal.frequency_phase_slope op2 = Ok (PyFloat (2 * 3)%float)).
Proof.
  assert (Ho : transformed_object
                 (Instance C_TransformedAnalogSignal (Some BaseGenerator)
                    (Some 0%float) (Some 1%float) (Some PyNone) (Some PyNone) None))
    by (repeat split; discriminate).
  split; [exact Ho|]. split; [reflexivity|]. split; [reflexivity|].
  apply (@slope_composition _ 2%float 3%float 2%float 3%float Ho); reflexivity.
Defined.

(** ** Sampling a transformed signal *)

Section TransformIdentity.

Context `{Numpy}.

Local Open Scope float_scope.

Lemma generate_delay_zero (g : Generator) (r : float) (n : Z) (t : float) :
  generate g r n (t + 0) = generate g r n t.
Proof.
  destruct g as [|a|a f p|s m v]; cbn [generate]; try reflexivity.
  - unfold SinusoidGenerator.generate. rewrite get_time_vector_delay_zero. reflexivity.
  - unfold GaussianNoiseGenerator.generate. rewrite get_time_vector_delay_zero. reflexivity.
Qed.

Lemma map_mul_1_l (l : array) : map (fun x => 1 * x) l = l.
Proof.
  rewrite <- (map_id l) at 2. apply map_ext. intros x. apply mul_1_l.
Qed.

Lemma new_fresh (g : Generator) :
  TransformedAnalogSignal.new (PyInstance (AnalogSignal.new g)) = Ok (fresh g).
Proof. reflexivity. Qed.

Lemma sample_fresh (g : Generator) (r : float) (n : Z) (t : float) :
  TransformedAnalogSignal.sample (fresh g) r n t = generate g r n t.
Proof.
  unfold TransformedAnalogSignal.sample. cbn [fresh bind TransformedAnalogSignal.flat_gain
    TransformedAnalogSignal.time_delay AnalogSignal.generator class_of issubclass getattr
    _flat_gain _generator _time_delay].
  rewrite generate_delay_zero.
  destruct (generate g r n t) as [l|e]; [|reflexivity]. cbn.
  rewrite map_mul_1_l. reflexivity.
Qed.

End TransformIdentity.

(** C5: [TransformedAnalogSignal(AnalogSignal(g))] does not raise and has
    the identity transform state ([time_delay = 0.0], [flat_gain = 1.0], both
    slopes [None]); its [sample(r, n, t)] is exactly [g.generate(r, n, t)],
    the same samples or the same exception, for every backend: the FFT is
    not consulted.  [TransformedAnalogSignal(a)] for a
    [TransformedAnalogSignal] object [a] does not raise and has the four
    transform fields of [a]. *)
Theorem transform_identity `{Numpy} (g : Generator) (a : instance)
  (r : float) (n : Z) (t : float) :
  transformed_object a ->
  (exists o,
     TransformedAnalogSignal.new (PyInstance (AnalogSignal.new g)) = Ok o /\
     transform_state o = (Ok 0%float, Ok 1%float, Ok PyNone, Ok PyNone) /\
     TransformedAnalogSignal.sample o r n t = generate g r n t /\
     sample o r n t = generate g r n t) /\
  (exists o',
     TransformedAnalogSignal.new (PyInstance a) = Ok o' /\
     transform_state o' = transform_state a).
Proof.
  intros Ha. split.
  - exists (fresh g). split; [apply new_fresh|]. split; [reflexivity|].
    split; apply sample_fresh.
  - destruct (transformed_object_inv Ha) as (ga & td & fg & ms & ps & cs & ->).
    eexists. split; reflexivity.
Qed.

Lemma transform_identity_witness :
  let a := Instance C_TransformedAnalogSignal (Some (ConstantGenerator 2))
             (Some 3%float) (Some 4%float) (Some (PyFloat 5)) (Some PyNone) None in
  transformed_object a /\
  (exists o,
     TransformedAnalogSignal.new (PyInstance (AnalogSignal.new (SinusoidGenerator 1 10 0)))
     = Ok o /\
     transform_state o = (Ok 0%float, Ok 1%float, Ok PyNone, Ok PyNone) /\
     @TransformedAnalogSignal.sample small_backend o 1000 100 0
     = @generate small_backend (SinusoidGenerator 1 10 0) 1000 100 0 /\
     @sample small_backend o 1000 100 0
     = @generate small_backend (SinusoidGenerator 1 10 0) 1000 100 0) /\
  (exists o',
     TransformedAnalogSignal.new (PyInstance a) = Ok o' /\
     transform_state o' = transform_state a).
Proof.
  assert (Ha : transformed_object
                 (Instance C_TransformedAnalogSignal (Some (ConstantGenerator 2))
                    (Some 3%float) (Some 4%float) (Some (PyFloat 5)) (Some PyNone) None))
    by (repeat split; discriminate).
  split; [exact Ha|].
  apply (@transform_identity small_backend (SinusoidGenerator 1 10 0) _ 1000 100 0 Ha).
Defined.

(** ** Sampling a compound signal *)

Section CompoundSample.

Context `{Numpy}.

Local Open Scope float_scope.

Lemma sample_compound (self : instance) (r : float) (n : Z) (t : float) :
  class_of self = C_CompoundAnalogSignal ->
  sample self r n t = CompoundAnalogSignal.sample_with (fun c => sample c r n t) self n.
Proof. destruct self as [c g td fg ms ps cs]. cbn. intros ->. reflexivity. Qed.

Lemma sample_transformed (self : instance) (r : float) (n : Z) (t : float) :
  class_of self = C_TransformedAnalogSignal ->
  sample self r n t = TransformedAnalogSignal.sample self r n t.
Proof. destruct self as [c g td fg ms ps cs]. cbn. intros ->. reflexivity. Qed.

Lemma map_nth_seq_id (l : array) : map (fun i => nth i l 0) (seq 0 (length l)) = l.
Proof.
  induction l as [|x l IH]; [reflexivity|].
  cbn [length seq map nth]. f_equal.
  rewrite <- seq_shift, map_map. exact IH.
Qed.

Lemma iadd_same_length (acc v : array) :
  length acc = length v ->
  iadd acc v = Ok (map (fun p => fst p + snd p) (combine acc v)).
Proof. intros E. unfold iadd. rewrite E, Nat.eqb_refl. reflexivity. Qed.

Lemma nth_pointwise_sum (acc v : array) (i : nat) :
  length acc = length v ->
  nth i (map (fun p => fst p + snd p) (combine acc v)) 0 = nth i acc 0 + nth i v 0.
Proof.
  intros E.
  change 0 with ((fun p : float * float => fst p + snd p) (0, 0)) at 1.
  rewrite map_nth, combine_nth by exact E. reflexivity.
Qed.

(** The accumulation loop computes, at each index, the left-to-right sum
    of the component samples, starting from the accumulator. *)
Lemma accumulate_columns (f : instance -> result array) (n : nat)
  (cs : list instance) (vs : list array) :
  Forall2 (fun c v => f c = Ok v /\ length v = n) cs vs ->
  forall acc, length acc = n ->
  CompoundAnalogSignal.accumulate f cs acc
  = Ok (map (fun i => fold_left (fun s v => s + nth i v 0) vs (nth i acc 0)) (seq 0 n)).
Proof.
  induction 1 as [|c v cs vs [Ev Lv] _ IH]; intros acc Lacc.
  - cbn [CompoundAnalogSignal.accumulate fold_left]. rewrite <- Lacc, map_nth_seq_id.
    reflexivity.
  - cbn [CompoundAnalogSignal.accumulate]. rewrite Ev. cbn [bind].
    rewrite iadd_same_length by congruence. cbn [bind].
    rewrite IH by (rewrite length_map, length_combine; lia).
    f_equal. apply map_ext. intros i. cbn [fold_left].
    rewrite nth_pointwise_sum by congruence. reflexivity.
Qed.

Lemma nth_repeat_zero (n i : nat) : nth i (repeat 0 n) 0 = 0.
Proof. apply nth_repeat. Qed.

Lemma sample_constant (a r : float) (n : Z) (t : float) :
  (0 <= n)%Z ->
  sample (fresh (ConstantGenerator a)) r n t = Ok (repeat a (Z.to_nat n)).
Proof.
  intros Hn. rewrite sample_transformed by reflexivity. rewrite sample_fresh.
  cbn [generate]. unfold ConstantGenerator.generate, np_ones.
  destruct (Z.ltb_spec n 0); [lia|]. cbn [bind].
  rewrite map_repeat, mul_1_r. reflexivity.
Qed.

Lemma nth_repeat_in (a : float) (n i : nat) : (i < n)%nat -> nth i (repeat a n) 0 = a.
Proof.
  intros Hi. rewrite (nth_indep _ 0 a) by (rewrite repeat_length; exact Hi).
  apply nth_repeat.
Qed.

Lemma map_seq_const (f : nat -> float) (x : float) (n : nat) :
  (forall i, (i < n)%nat -> f i = x) -> map f (seq 0 n) = repeat x n.
Proof.
  intros Hf. transitivity (map (fun _ : nat => x) (seq 0 n)).
  - apply map_ext_in. intros i Hi. apply in_seq in Hi. apply Hf. lia.
  - rewrite map_const, length_seq. reflexivity.
Qed.

End CompoundSample.

(** Superposition: for a count [n >= 0], when every component's
    [sample(r, n, t)] returns [n] values, the compound's [sample(r, n, t)]
    returns the [n] values whose [i]-th is the sum of the components' [i]-th
    values, added in order to [0.0].  The compound of two constant signals
    of amplitudes [a] and [b] returns the constant vector of [(0.0 + a) + b],
    which is the number [a + b]; the compound of no signal returns [n]
    zeros.  A component that returns another number of values makes the
    compound raise, as a sinusoid does at [(10.0, 3, 0.0)]. *)
Theorem compound_superposition `{Numpy} (self : instance) (cs : list instance)
  (vs : list array) (a b r : float) (n : Z) (t : float) :
  0 <= n ->
  class_of self = C_CompoundAnalogSignal ->
  _components self = Some cs ->
  Forall2 (fun c v => sample c r n t = Ok v /\ length v = Z.to_nat n) cs vs ->
  sample self r n t
  = Ok (map (fun i => fold_left (fun s v => (s + nth i v 0)%float) vs 0%float)
          (seq 0 (Z.to_nat n))) /\
  (exists ab,
     CompoundAnalogSignal.new [PyInstance (AnalogSignal.new (ConstantGenerator a));
                               PyInstance (AnalogSignal.new (ConstantGenerator b))] = Ok ab /\
     sample ab r n t = Ok (repeat ((0 + a) + b)%float (Z.to_nat n)) /\
     F64.same_number ((0 + a) + b)%float (a + b)%float) /\
  (exists none,
     CompoundAnalogSignal.new [] = Ok none /\
     sample none r n t = Ok (repeat 0%float (Z.to_nat n))).
Proof.
  intros Hn Hc Hcs Hvs.
  assert (Hsum : forall (o : instance) (l : list instance) (ws : list array),
             class_of o = C_CompoundAnalogSignal -> _components o = Some l ->
             Forall2 (fun c v => sample c r n t = Ok v /\ length v = Z.to_nat n) l ws ->
             sample o r n t
             = Ok (map (fun i => fold_left (fun s v => (s + nth i v 0)%float) ws 0%float)
                     (seq 0 (Z.to_nat n)))).
  { intros o l ws Ho Hl Hws. rewrite sample_compound by exact Ho.
    unfold CompoundAnalogSignal.sample_with, np_zeros.
    destruct (Z.ltb_spec n 0); [lia|]. cbn [bind]. rewrite Hl.
    rewrite (accumulate_columns (fun c => sample c r n t) Hws) by apply repeat_length.
    f_equal. apply map_ext. intros i. rewrite nth_repeat_zero. reflexivity. }
  split; [exact (Hsum self cs vs Hc Hcs Hvs)|]. split.
  - eexists. split; [reflexivity|]. split; [|apply add_zero_acc].
    rewrite (Hsum _ [fresh (ConstantGenerator a); fresh (ConstantGenerator b)]
               [repeat a (Z.to_nat n); repeat b (Z.to_nat n)]);
      [|reflexivity|reflexivity|].
    + f_equal. apply map_seq_const. intros i Hi. cbn [fold_left].
      rewrite !nth_repeat_in by lia. reflexivity.
    + repeat constructor; try apply sample_constant; try apply repeat_length; exact Hn.
  - eexists. split; [reflexivity|].
    rewrite (Hsum _ [] []); [|reflexivity|reflexivity|constructor].
    f_equal. apply map_seq_const. reflexivity.
Qed.

Lemma compound_superposition_witness :
  let self := Instance C_CompoundAnalogSignal None None None None None
                (Some [fresh (ConstantGenerator 2); fresh (ConstantGenerator 3)]) in
  let vs := [[2; 2; 2]; [3; 3; 3]]%float in
  0 <= 3 /\
  class_of self = C_CompoundAnalogSignal /\
  _components self = Some [fresh (ConstantGenerator 2); fresh (ConstantGenerator 3)] /\
  Forall2 (fun c v => @sample small_backend c 1 3 0 = Ok v /\ length v = Z.to_nat 3)
    [fresh (ConstantGenerator 2); fresh (ConstantGenerator 3)] vs /\
  @sample small_backend self 1 3 0
  = Ok (map (fun i => fold_left (fun s v => (s + nth i v 0)%float) vs 0%float)
          (seq 0 (Z.to_nat 3))).
Proof.
  assert (Hvs : Forall2
                  (fun c v => @sample small_backend c 1 3 0 = Ok v /\ length v = Z.to_nat 3)
                  [fresh (ConstantGenerator 2); fresh (ConstantGenerator 3)]
                  [[2; 2; 2]; [3; 3; 3]]%float)
    by (repeat constructor; vm_compute; reflexivity).
  split; [lia|]. split; [reflexivity|]. split; [reflexivity|]. split; [exact Hvs|].
  apply (@compound_superposition small_backend
           (Instance C_CompoundAnalogSignal None None None None None
              (Some [fresh (ConstantGenerator 2); fresh (ConstantGenerator 3)]))
           [fresh (ConstantGenerator 2); fresh (ConstantGenerator 3)]
           [[2; 2; 2]; [3; 3; 3]]%float 2%float 3%float 1%float 3 0%float);
    [lia | reflexivity | reflexivity | exact Hvs].
Defined.

(** ** Construction of signals *)

Lemma new_transformed_object (x : pyobject) (o : instance) :
  TransformedAnalogSignal.new x = Ok o -> transformed_object o.
Proof.
  destruct x as [v|g|a]; [discriminate | discriminate |].
  destruct a as [c g td fg ms ps cs].
  destruct c, g, td, fg, ms, ps; cbn; intros E; try discriminate;
    injection E as <-; repeat split; discriminate.
Qed.

Lemma new_from_transformed_object (a : instance) :
  transformed_object a ->
  exists o, TransformedAnalogSignal.new (PyInstance a) = Ok o /\
            class_of o = C_TransformedAnalogSignal /\
            transform_state o = transform_state a /\ _generator o = _generator a.
Proof.
  intros Ha. destruct (transformed_object_inv Ha) as (g & td & fg & ms & ps & cs & ->).
  eexists. repeat split.
Qed.

Lemma mapM_Forall (A B : Type) (f : A -> result B) (P : B -> Prop) (l : list A) (l' : list B) :
  (forall a b, f a = Ok b -> P b) -> mapM f l = Ok l' -> Forall P l'.
Proof.
  intros Hf. revert l'. induction l as [|a l IH]; intros l'; cbn [mapM].
  - intros E. injection E as <-. constructor.
  - destruct (f a) as [b|e] eqn:Eb; [|discriminate]. cbn [bind].
    destruct (mapM f l) as [bs|e]; [|discriminate]. cbn [bind].
    intros E. injection E as <-. constructor; [exact (Hf a b Eb) | apply IH; reflexivity].
Qed.

Lemma components_of_element_transformed (s : pyobject) (new : list instance) :
  CompoundAnalogSignal.components_of_element s = Ok new -> Forall transformed_object new.
Proof.
  unfold CompoundAnalogSignal.components_of_element.
  destruct (isinstance s C_CompoundAnalogSignal).
  - destruct s as [v|g|c]; try discriminate.
    destruct (CompoundAnalogSignal.components c) as [cs|e]; [|discriminate]. cbn [bind].
    apply mapM_Forall. intros t o. apply new_transformed_object.
  - destruct (TransformedAnalogSignal.new s) as [t|e] eqn:Et; [|discriminate]. cbn [bind].
    intros E. injection E as <-. constructor; [|constructor].
    exact (new_transformed_object _ Et).
Qed.

Lemma add_signals_transformed (signals : list pyobject) (acc cs : list instance) :
  CompoundAnalogSignal.add_signals signals acc = Ok cs ->
  Forall transformed_object acc -> Forall transformed_object cs.
Proof.
  revert acc. induction signals as [|s rest IH]; intros acc; cbn [CompoundAnalogSignal.add_signals].
  - intros E Hacc. injection E as <-. exact Hacc.
  - destruct (CompoundAnalogSignal.components_of_element s) as [new|e] eqn:En; [|discriminate].
    cbn [bind]. intros E Hacc. apply (IH _ E). apply Forall_app. split; [exact Hacc|].
    exact (components_of_element_transformed _ En).
Qed.

(** Whatever the argument, a [CompoundAnalogSignal] that has been
    constructed holds [TransformedAnalogSignal] objects and nothing else. *)
Lemma new_compound_object (signals : list pyobject) (o : instance) :
  CompoundAnalogSignal.new signals = Ok o -> compound_object o.
Proof.
  unfold CompoundAnalogSignal.new, CompoundAnalogSignal.__init__.
  destruct (CompoundAnalogSignal.add_signals signals []) as [cs|e] eqn:E; [|discriminate].
  cbn [bind]. intros Eo. injection Eo as <-.
  repeat split. exists cs. split; [reflexivity|].
  apply (add_signals_transformed _ E). constructor.
Qed.

(** ** Mutators and the shape of objects *)

Lemma call_mutator_transformed (m : mutator) (o : instance) (x : value) :
  class_of o = C_TransformedAnalogSignal ->
  call_mutator m o x = TransformedAnalogSignal_method m o x.
Proof. destruct o as [c g td fg ms ps cs]. cbn. intros ->. reflexivity. Qed.

Lemma call_mutator_compound (m : mutator) (o : instance) (x : value) :
  class_of o = C_CompoundAnalogSignal ->
  call_mutator m o x = CompoundAnalogSignal.mutate_with (fun c => call_mutator m c x) o.
Proof. destruct o as [c g td fg ms ps cs]. cbn. intros ->. reflexivity. Qed.

(** A mutator of [TransformedAnalogSignal] only assigns transform fields. *)
Lemma method_preserves (m : mutator) (o : instance) (x : value) :
  transformed_object o ->
  transformed_object (fst (TransformedAnalogSignal_method m o x)) /\
  class_of (fst (TransformedAnalogSignal_method m o x)) = class_of o /\
  _generator (fst (TransformedAnalogSignal_method m o x)) = _generator o /\
  _components (fst (TransformedAnalogSignal_method m o x)) = _components o.
Proof.
  intros Ho. destruct (transformed_object_inv Ho) as (g & td & fg & ms & ps & cs & ->).
  destruct m, x, ms, ps; cbn; repeat split; discriminate.
Qed.

Lemma same_signal_refl (cs : list instance) : Forall2 same_signal cs cs.
Proof. induction cs; constructor; [repeat split | assumption]. Qed.

Lemma broadcast_preserves (m : mutator) (x : value) (cs : list instance) :
  Forall transformed_object cs ->
  Forall transformed_object
    (fst (CompoundAnalogSignal.broadcast (fun c => call_mutator m c x) cs)) /\
  Forall2 same_signal cs
    (fst (CompoundAnalogSignal.broadcast (fun c => call_mutator m c x) cs)).
Proof.
  induction 1 as [|c rest Hc Hrest [IH1 IH2]]; [split; constructor|].
  cbn [CompoundAnalogSignal.broadcast].
  rewrite (call_mutator_transformed m c x (proj1 Hc)).
  destruct (method_preserves m x Hc) as (Hc' & Hcl & Hg & Hcomp).
  destruct (TransformedAnalogSignal_method m c x) as [c' [u|e]]; cbn [fst] in *.
  - destruct (CompoundAnalogSignal.broadcast (fun c0 => call_mutator m c0 x) rest)
      as [rest' r']; cbn [fst] in *.
    split; constructor; try assumption. repeat split; assumption.
  - split; constructor; try assumption; [repeat split; assumption | apply same_signal_refl].
Qed.

Lemma compound_object_inv (o : instance) :
  compound_object o ->
  exists cs, o = Instance C_CompoundAnalogSignal None None None None None (Some cs) /\
             Forall transformed_object cs.
Proof.
  destruct o as [c g td fg ms ps cs]. unfold compound_object. cbn.
  intros (-> & -> & -> & -> & -> & -> & l & -> & Hl). exists l. split; [reflexivity|exact Hl].
Qed.

Lemma mutate_compound_object (m : mutator) (x : value) (o : instance) :
  compound_object o ->
  compound_object (fst (call_mutator m o x)) /\
  exists cs cs',
    _components o = Some cs /\
    _components (fst (call_mutator m o x)) = Some cs' /\
    cs' = fst (CompoundAnalogSignal.broadcast (fun c => call_mutator m c x) cs) /\
    Forall2 same_signal cs cs'.
Proof.
  intros Ho. destruct (compound_object_inv Ho) as (cs & -> & Hcs).
  rewrite call_mutator_compound by reflexivity.
  unfold CompoundAnalogSignal.mutate_with. cbn [_components].
  destruct (broadcast_preserves m x Hcs) as [H1 H2].
  destruct (CompoundAnalogSignal.broadcast (fun c => call_mutator m c x) cs) as [cs' r]
    eqn:Eb.
  cbn [fst] in *. split.
  - repeat split. exists cs'. split; [reflexivity|exact H1].
  - exists cs, cs'. rewrite Eb. repeat split. exact H2.
Qed.

Lemma well_formed_mutated (m : mutator) (x : value) (o : instance) :
  well_formed o -> well_formed (fst (call_mutator m o x)).
Proof.
  intros Ho. destruct (class_of o) eqn:Ec; unfold well_formed in Ho; rewrite Ec in Ho;
    try contradiction.
  - destruct o as [c g td fg ms ps cs]. cbn in Ec. subst c. exact Ho.
  - rewrite call_mutator_transformed by exact Ec.
    destruct (method_preserves m x Ho) as (Ho' & Hcl & _).
    unfold well_formed. rewrite Hcl, Ec. exact Ho'.
  - destruct (mutate_compound_object m x Ho) as [Ho' _].
    unfold well_formed. rewrite (proj1 Ho'). exact Ho'.
Qed.

(** Every object built through the constructors and the mutators is an
    [AnalogSignal] with its generator, a complete [TransformedAnalogSignal],
    or a [CompoundAnalogSignal] holding [TransformedAnalogSignal] objects. *)
Lemma constructed_well_formed (o : instance) : constructed o -> well_formed o.
Proof.
  induction 1 as [g|a o _ _ Eo|l o _ _ Eo|m x o _ IH].
  - cbn. discriminate.
  - pose proof (new_transformed_object _ Eo) as Ho.
    unfold well_formed. rewrite (proj1 Ho). exact Ho.
  - pose proof (new_compound_object _ Eo) as Ho.
    unfold well_formed. rewrite (proj1 Ho). exact Ho.
  - apply well_formed_mutated. exact IH.
Qed.

Lemma well_formed_cases (o : instance) :
  well_formed o ->
  (class_of o = C_AnalogSignal /\ _generator o <> None) \/
  transformed_object o \/ compound_object o.
Proof.
  unfold well_formed. destruct (class_of o) eqn:Ec; try contradiction; auto.
Qed.

(** ** The constructors on constructed objects *)

Lemma mapM_new_transformed (cs : list instance) :
  Forall transformed_object cs ->
  exists l, mapM (fun t => TransformedAnalogSignal.new (PyInstance t)) cs = Ok l /\
            length l = length cs.
Proof.
  induction 1 as [|c cs Hc _ [l [El Ll]]]; [exists []; split; reflexivity|].
  destruct (new_from_transformed_object Hc) as (o & Eo & _).
  exists (o :: l). cbn [mapM]. rewrite Eo. cbn [bind]. rewrite El. cbn [bind length].
  split; [reflexivity | congruence].
Qed.

Lemma new_from_analog (a : instance) :
  class_of a = C_AnalogSignal -> _generator a <> None ->
  exists o, TransformedAnalogSignal.new (PyInstance a) = Ok o.
Proof.
  destruct a as [c [g|] td fg ms ps cs]; cbn; intros -> Hg; [|congruence].
  eexists. reflexivity.
Qed.

(** One element of the argument of [CompoundAnalogSignal]. *)
Lemma components_of_constructed (s : instance) :
  well_formed s ->
  exists new, CompoundAnalogSignal.components_of_element (PyInstance s) = Ok new /\
              length new = component_count s.
Proof.
  intros Hs. unfold CompoundAnalogSignal.components_of_element, component_count.
  destruct (well_formed_cases s Hs) as [[Ec Hg]|[Ht|Hc]].
  - destruct (new_from_analog s Ec Hg) as [o Eo].
    cbn [isinstance]. rewrite Ec. cbn [issubclass]. rewrite Eo. cbn [bind].
    exists [o]. split; reflexivity.
  - destruct (new_from_transformed_object Ht) as (o & Eo & _).
    cbn [isinstance]. rewrite (proj1 Ht). cbn [issubclass]. rewrite Eo. cbn [bind].
    exists [o]. split; reflexivity.
  - destruct (compound_object_inv Hc) as (cs & -> & Hcs).
    cbn [isinstance class_of issubclass CompoundAnalogSignal.components getattr _components bind].
    destruct (mapM_new_transformed Hcs) as (l & El & Ll).
    exists l. split; [exact El | exact Ll].
Qed.

Lemma add_signals_constructed (l : list instance) (acc : list instance) :
  (forall a, In a l -> well_formed a) ->
  exists new, CompoundAnalogSignal.add_signals (map PyInstance l) acc = Ok (acc ++ new) /\
              length new = list_sum (map component_count l).
Proof.
  revert acc. induction l as [|s l IH]; intros acc Hl.
  - exists []. cbn. rewrite app_nil_r. split; reflexivity.
  - destruct (components_of_constructed s (Hl s (or_introl eq_refl))) as (n1 & E1 & L1).
    destruct (IH (acc ++ n1) (fun a Ha => Hl a (or_intror Ha))) as (n2 & E2 & L2).
    exists (n1 ++ n2). cbn [map CompoundAnalogSignal.add_signals list_sum].
    rewrite E1. cbn [bind]. rewrite E2, app_assoc, length_app, L1, L2.
    split; reflexivity.
Qed.

(** C7: for every list of constructed signals, [CompoundAnalogSignal(l)]
    does not raise; each stored component is an object of class
    [TransformedAnalogSignal], hence not a [CompoundAnalogSignal]; and there
    are as many components as the sum, over the list, of 1 for an element
    that is not a compound and of the number of its own components for an
    element that is. *)
Theorem compound_is_flat (l : list instance) :
  (forall a, In a l -> constructed a) ->
  exists c cs,
    CompoundAnalogSignal.new (map PyInstance l) = Ok c /\
    CompoundAnalogSignal.components c = Ok cs /\
    Forall (fun k => class_of k = C_TransformedAnalogSignal /\
                     isinstance (PyInstance k) C_CompoundAnalogSignal = false) cs /\
    length cs = list_sum (map component_count l).
Proof.
  intros Hl.
  destruct (@add_signals_constructed l [] (fun a Ha => constructed_well_formed (Hl a Ha)))
    as (cs & Ecs & Lcs).
  cbn [app] in Ecs.
  exists (set_components (new_object C_CompoundAnalogSignal) cs), cs.
  split; [|split; [reflexivity|split; [|exact Lcs]]].
  - unfold CompoundAnalogSignal.new, CompoundAnalogSignal.__init__. rewrite Ecs. reflexivity.
  - pose proof (add_signals_transformed _ Ecs (Forall_nil _)) as Hcs.
    apply Forall_impl with (2 := Hcs). intros k [Hk _].
    split; [exact Hk|]. cbn [isinstance]. rewrite Hk. reflexivity.
Qed.

(** A plain signal, a transformed one and a compound of two: four
    components. *)
Lemma compound_is_flat_witness :
  let s := AnalogSignal.new (SinusoidGenerator 1 10 0) in
  let inner := Instance C_CompoundAnalogSignal None None None None None
                 (Some [fresh (ConstantGenerator 1); fresh BaseGenerator]) in
  (forall a, In a [s; fresh (ConstantGenerator 2); inner] -> constructed a) /\
  exists c cs,
    CompoundAnalogSignal.new (map PyInstance [s; fresh (ConstantGenerator 2); inner]) = Ok c /\
    CompoundAnalogSignal.components c = Ok cs /\
    Forall (fun k => class_of k = C_TransformedAnalogSignal /\
                     isinstance (PyInstance k) C_CompoundAnalogSignal = false) cs /\
    length cs = list_sum (map component_count [s; fresh (ConstantGenerator 2); inner]).
Proof.
  assert (Hf : forall g, constructed (fresh g)).
  { intros g. apply constructed_TransformedAnalogSignal with (a := AnalogSignal.new g);
      [constructor | reflexivity]. }
  assert (Hl : forall a,
             In a [AnalogSignal.new (SinusoidGenerator 1 10 0); fresh (ConstantGenerator 2);
                   Instance C_CompoundAnalogSignal None None None None None
                     (Some [fresh (ConstantGenerator 1); fresh BaseGenerator])] ->
             constructed a).
  { intros a [<-|[<-|[<-|[]]]]; [constructor | apply Hf |].
    apply constructed_CompoundAnalogSignal
      with (l := [AnalogSignal.new (ConstantGenerator 1); AnalogSignal.new BaseGenerator]);
      [|reflexivity].
    intros b [<-|[<-|[]]]; constructor. }
  split; [exact Hl|]. apply (compound_is_flat _ Hl).
Defined.

(** C8, on the code: [TransformedAnalogSignal(c)] raises [AttributeError]
    for the compound [c = CompoundAnalogSignal([AnalogSignal(Generator())])],
    which is an instance of [AnalogSignal] and passes the constructor's
    [isinstance] test: the copy branch reads [c.time_delay], and
    [CompoundAnalogSignal.__init__], which does not call the parent
    constructor, has not assigned [c._time_delay]. *)
Lemma TransformedAnalogSignal_of_compound_raises :
  let c := Instance C_CompoundAnalogSignal None None None None None
             (Some [fresh BaseGenerator]) in
  CompoundAnalogSignal.new [PyInstance (AnalogSignal.new BaseGenerator)] = Ok c /\
  isinstance (PyInstance c) C_AnalogSignal = true /\
  TransformedAnalogSignal.new (PyInstance c) = Raise AttributeError.
Proof. repeat split. Qed.

(** The constructor on every argument: [TransformedAnalogSignal(x)] raises
    [ValueError] when [x] is not an instance of [AnalogSignal]; it does not
    raise when [x] is a constructed [AnalogSignal] or
    [TransformedAnalogSignal] object that is not a compound; on every
    constructed [CompoundAnalogSignal] it raises [AttributeError], reading
    the [_time_delay] that no constructor of the compound has assigned. *)
Theorem transformed_constructor_errors (x : pyobject) (a : instance) :
  constructed a ->
  (isinstance x C_AnalogSignal = false -> TransformedAnalogSignal.new x = Raise ValueError) /\
  isinstance (PyInstance a) C_AnalogSignal = true /\
  (class_of a <> C_CompoundAnalogSignal ->
   is_ok (TransformedAnalogSignal.new (PyInstance a)) = true) /\
  (class_of a = C_CompoundAnalogSignal ->
   TransformedAnalogSignal.new (PyInstance a) = Raise AttributeError).
Proof.
  intros Ha. split.
  { intros Hx. unfold TransformedAnalogSignal.new, TransformedAnalogSignal.__init__.
    rewrite Hx. reflexivity. }
  apply constructed_well_formed in Ha.
  destruct (well_formed_cases a Ha) as [[Ec Hg]|[Ht|Hc]].
  - destruct (new_from_analog a Ec Hg) as [o Eo]. rewrite Eo.
    cbn [isinstance]. rewrite Ec. repeat split. intros E. discriminate.
  - destruct (new_from_transformed_object Ht) as (o & Eo & _). rewrite Eo.
    cbn [isinstance]. rewrite (proj1 Ht). repeat split. intros E. discriminate.
  - destruct (compound_object_inv Hc) as (cs & -> & Hcs).
    repeat split. intros E. contradiction E. reflexivity.
Qed.

Lemma transformed_constructor_errors_witness :
  constructed (AnalogSignal.new (ConstantGenerator 1)) /\
  (isinstance (PyValue (PyFloat 1)) C_AnalogSignal = false ->
   TransformedAnalogSignal.new (PyValue (PyFloat 1)) = Raise ValueError) /\
  isinstance (PyInstance (AnalogSignal.new (ConstantGenerator 1))) C_AnalogSignal = true /\
  (class_of (AnalogSignal.new (ConstantGenerator 1)) <> C_CompoundAnalogSignal ->
   is_ok (TransformedAnalogSignal.new (PyInstance (AnalogSignal.new (ConstantGenerator 1))))
   = true) /\
  (class_of (AnalogSignal.new (ConstantGenerator 1)) = C_CompoundAnalogSignal ->
   TransformedAnalogSignal.new (PyInstance (AnalogSignal.new (ConstantGenerator 1)))
   = Raise AttributeError).
Proof.
  split; [constructor|].
  apply (@transformed_constructor_errors (PyValue (PyFloat 1))
           (AnalogSignal.new (ConstantGenerator 1))).
  constructor.
Defined.

(** ** The compound and its inherited fields *)

Lemma constructed_compound_object (c : instance) :
  constructed c -> class_of c = C_CompoundAnalogSignal -> compound_object c.
Proof.
  intros Hc Ec. apply constructed_well_formed in Hc.
  unfold well_formed in Hc. rewrite Ec in Hc. exact Hc.
Qed.

Lemma compound_object_state (c : instance) :
  compound_object c ->
  transform_state c
  = (Raise AttributeError, Raise AttributeError, Raise AttributeError, Raise AttributeError) /\
  AnalogSignal.generator c = Raise AttributeError.
Proof.
  intros Hc. destruct (compound_object_inv Hc) as (cs & -> & _). split; reflexivity.
Qed.

(** C10: a constructed [CompoundAnalogSignal] has none of the inherited
    attributes [_generator], [_time_delay], [_flat_gain],
    [_frequency_magnitude_slope], [_frequency_phase_slope]: its constructor
    assigns [_components] only.  Reading its four transform properties
    raises [AttributeError].  A mutator leaves it so, and changes its
    components only, each of which keeps its class and its generator.
    [sample] and the mutators read nothing but the components: on any
    compound object with the same components they return the same samples,
    the same outcome and the same new components. *)
Theorem compound_has_no_transform_state `{Numpy} (c c2 : instance) (m : mutator)
  (x : value) (r : float) (n : Z) (t : float) :
  constructed c ->
  class_of c = C_CompoundAnalogSignal ->
  (_generator c = None /\ _time_delay c = None /\ _flat_gain c = None /\
   _frequency_magnitude_slope c = None /\ _frequency_phase_slope c = None) /\
  transform_state c
  = (Raise AttributeError, Raise AttributeError, Raise AttributeError, Raise AttributeError) /\
  (compound_object (fst (call_mutator m c x)) /\
   transform_state (fst (call_mutator m c x))
   = (Raise AttributeError, Raise AttributeError, Raise AttributeError, Raise AttributeError) /\
   exists cs cs',
     _components c = Some cs /\
     _components (fst (call_mutator m c x)) = Some cs' /\
     cs' = fst (CompoundAnalogSignal.broadcast (fun k => call_mutator m k x) cs) /\
     Forall2 same_signal cs cs') /\
  (class_of c2 = C_CompoundAnalogSignal ->
   _components c2 = _components c ->
   sample c2 r n t = sample c r n t /\
   snd (call_mutator m c2 x) = snd (call_mutator m c x) /\
   _components (fst (call_mutator m c2 x)) = _components (fst (call_mutator m c x))).
Proof.
  intros Hc Ec. pose proof (constructed_compound_object Hc Ec) as Ho.
  destruct (mutate_compound_object m x Ho) as [Ho' Hcs].
  split; [|split; [|split]].
  - destruct Ho as (_ & H1 & H2 & H3 & H4 & H5 & _). repeat split; assumption.
  - apply compound_object_state, Ho.
  - split; [exact Ho'|]. split; [apply compound_object_state, Ho' | exact Hcs].
  - intros Ec2 Ecs. destruct Hcs as (cs & cs' & E1 & _).
    rewrite !sample_compound by assumption.
    rewrite !call_mutator_compound by assumption.
    unfold CompoundAnalogSignal.sample_with, CompoundAnalogSignal.mutate_with.
    rewrite Ecs, E1.
    destruct (CompoundAnalogSignal.broadcast (fun c0 => call_mutator m c0 x) cs).
    repeat split.
Qed.

Lemma compound_has_no_transform_state_witness :
  let c := Instance C_CompoundAnalogSignal None None None None None
             (Some [fresh BaseGenerator]) in
  let c2 := Instance C_CompoundAnalogSignal None (Some 5%float) None None None
              (Some [fresh BaseGenerator]) in
  constructed c /\
  class_of c = C_CompoundAnalogSignal /\
  transform_state c
  = (Raise AttributeError, Raise AttributeError, Raise AttributeError, Raise AttributeError) /\
  (class_of c2 = C_CompoundAnalogSignal ->
   _components c2 = _components c ->
   @sample small_backend c2 1 3 0 = @sample small_backend c 1 3 0 /\
   snd (call_mutator m_apply_delay c2 (PyFloat 1))
   = snd (call_mutator m_apply_delay c (PyFloat 1)) /\
   _components (fst (call_mutator m_apply_delay c2 (PyFloat 1)))
   = _components (fst (call_mutator m_apply_delay c (PyFloat 1)))).
Proof.
  assert (Hc : constructed
                 (Instance C_CompoundAnalogSignal None None None None None
                    (Some [fresh BaseGenerator]))).
  { apply constructed_CompoundAnalogSignal with (l := [AnalogSignal.new BaseGenerator]);
      [|reflexivity].
    intros b [<-|[]]. constructor. }
  split; [exact Hc|]. split; [reflexivity|].
  destruct (@compound_has_no_transform_state small_backend
              (Instance C_CompoundAnalogSignal None None None None None
                 (Some [fresh BaseGenerator]))
              (Instance C_CompoundAnalogSignal None (Some 5%float) None None None
                 (Some [fresh BaseGenerator]))
              m_apply_delay (PyFloat 1) 1%float 3 0%float Hc eq_refl)
    as (_ & Hstate & _ & Hframe).
  split; [exact Hstate | exact Hframe].
Defined.

(** ** The extra time sample downstream

    With four time values for a count of three, a sinusoid returns four
    samples, and a compound over it raises: its accumulator [np.zeros(3)]
    cannot take four values. *)

Example sinusoid_10_3_returns_four `{Numpy} (a f p : float) :
  exists v, generate (SinusoidGenerator a f p) 10 3 0 = Ok v /\ length v = 4%nat.
Proof.
  cbn [generate]. unfold SinusoidGenerator.generate.
  rewrite get_time_vector_10_3. cbn [bind map].
  eexists. split; reflexivity.
Qed.

Example compound_of_sinusoid_10_3_raises `{Numpy} (a f p : float) :
  exists c,
    CompoundAnalogSignal.new [PyInstance (AnalogSignal.new (SinusoidGenerator a f p))] = Ok c /\
    sample c 10 3 0 = Raise ValueError.
Proof.
  eexists. split; [reflexivity|]. vm_compute. reflexivity.
Qed.

(** The same request is off the grid for the noise generator: four time
    values, and the index range [0..4] of five samples. *)
Example request_10_3_bounds :
  (tvec <- Generator.get_time_vector 10 3 0 ;;
   bounds <- GaussianNoiseGenerator.sample_bounds tvec 10 ;;
   Ok (length tvec, bounds))
  = Ok (4%nat, (0, 4)).
Proof. vm_compute. reflexivity. Qed.

(** C6, on the code: the compound [c] built from one sinusoid signal stores
    the single component [TransformedAnalogSignal(AnalogSignal(sinusoid))];
    at [(r, n, t) = (10.0, 3, 0.0)] that component's [sample] returns four
    values, and [c.sample(10.0, 3, 0.0)] raises [ValueError] instead of
    returning the sum over its components: [result += c.sample(r, n, t)]
    cannot add four values into [np.zeros(3)]. *)
Theorem compound_sample_of_sinusoid_10_3 `{Numpy} (a f p : float) :
  exists c v,
    CompoundAnalogSignal.new [PyInstance (AnalogSignal.new (SinusoidGenerator a f p))] = Ok c /\
    _components c = Some [fresh (SinusoidGenerator a f p)] /\
    sample (fresh (SinusoidGenerator a f p)) 10 3 0 = Ok v /\
    length v = 4%nat /\
    sample c 10 3 0 = Raise ValueError.
Proof.
  eexists. eexists. split; [reflexivity|]. split; [reflexivity|].
  split; [vm_compute; reflexivity|]. split; [reflexivity|].
  vm_compute. reflexivity.
Qed.

(** ** The extra time sample and the noise generator

    A request whose time vector has one value more than the count asked for
    returns one sample more: the last sample of a first half is then also the
    first sample of the second half. *)

(** When the index range of the time vector has as many indices as the
    vector has values, [generate] returns the rescaled samples of that range,
    whatever the count that was asked for. *)
Lemma generate_without_correction `{Numpy} (b : Z) (mean variance r : float) (n : Z)
  (t : float) (len : nat) (s : Z) :
  (0 < len)%nat ->
  (tvec <- Generator.get_time_vector r n t ;;
   bounds <- GaussianNoiseGenerator.sample_bounds tvec r ;;
   Ok (length tvec, bounds))
  = Ok (len, (s, s + Z.of_nat len - 1)) ->
  GaussianNoiseGenerator.generate b mean variance r n t
  = (l <- noise_seq b s (Z.of_nat len) ;;
     Ok (map (fun x => (x + mean)%float) (map (fun x => (x * sqrt variance)%float) l))).
Proof.
  intros Hlen E.
  destruct (Generator.get_time_vector r n t) as [tvec|e] eqn:Et; [|discriminate].
  cbn [bind] in E.
  destruct (GaussianNoiseGenerator.sample_bounds tvec r) as [bounds|e] eqn:Eb; [|discriminate].
  cbn [bind] in E. injection E as El Ebounds. subst bounds.
  unfold GaussianNoiseGenerator.generate. rewrite Et. cbn [bind]. rewrite Eb.
  cbn [bind fst snd].
  rewrite _draw_samples_spec by lia.
  destruct (noise_seq b s (Z.of_nat len)) as [l|e] eqn:El'; [|reflexivity]. cbn [bind].
  apply noise_seq_length in El'.
  destruct (Nat.ltb_spec (length tvec) (length l)); [lia|]. reflexivity.
Qed.

(** The samples of a range inside window 0, once the seed of that window is
    accepted. *)
Lemma noise_seq_window_0 `{Numpy} (b : Z) (rs : rng_state) (off len : Z) :
  GaussianNoiseGenerator._seed_window_to_random_state b 0 = Ok rs ->
  0 <= off -> 0 < len -> off + len <= GaussianNoiseGenerator._samples_per_seed ->
  noise_seq b off len = Ok (map (nth_draw rs) (seq (Z.to_nat off) (Z.to_nat len))).
Proof.
  intros Hrs Hoff Hlen Hfit.
  change off with (0 * GaussianNoiseGenerator._samples_per_seed + off) at 1.
  rewrite noise_seq_window by lia. rewrite Hrs. reflexivity.
Qed.

(** C2, on the code: for a generator whose seed of window 0 is accepted, at
    rate [r = 7.0], start [t = 0.0] and split point [k = 59], the request
    [(r, k, t)] returns the 60 samples of indices [0..59], the request
    [(r, k, t + k/r)] the 60 samples of indices [59..118], and the request
    [(r, 2k, t)] the 119 samples of indices [0..118]: the two halves share
    the sample of index 59, and their concatenation, of 120 values, is not
    the output of the single request.  No fractional-delay correction is
    applied in any of the three calls. *)
Theorem generate_7_59_halves_overlap `{Numpy} (b : Z) (mean variance : float)
  (rs : rng_state) :
  GaussianNoiseGenerator._seed_window_to_random_state b 0 = Ok rs ->
  let g := GaussianNoiseGenerator b mean variance in
  let noise := fun i : nat => (nth_draw rs i * sqrt variance + mean)%float in
  generate g 7 59 0 = Ok (map noise (seq 0 60)) /\
  generate g 7 59 (0 + 59 / 7) = Ok (map noise (seq 59 60)) /\
  generate g 7 (2 * 59) 0 = Ok (map noise (seq 0 119)) /\
  generate g 7 (2 * 59) 0
  <> (x <- generate g 7 59 0 ;; y <- generate g 7 59 (0 + 59 / 7) ;; Ok (x ++ y)).
Proof.
  intros Hrs g noise.
  assert (E1 : generate g 7 59 0 = Ok (map noise (seq 0 60))).
  { cbn [g generate].
    rewrite (@generate_without_correction _ b mean variance 7 59 0 60 0)
      by (try lia; vm_compute; reflexivity).
    rewrite (@noise_seq_window_0 _ b rs 0 (Z.of_nat 60) Hrs) by (vm_compute; intuition discriminate).
    cbn [bind]. rewrite !map_map. reflexivity. }
  assert (E2 : generate g 7 59 (0 + 59 / 7) = Ok (map noise (seq 59 60))).
  { cbn [g generate].
    rewrite (@generate_without_correction _ b mean variance 7 59 (0 + 59 / 7) 60 59)
      by (try lia; vm_compute; reflexivity).
    rewrite (@noise_seq_window_0 _ b rs 59 (Z.of_nat 60) Hrs) by (vm_compute; intuition discriminate).
    cbn [bind]. rewrite !map_map. reflexivity. }
  assert (E3 : generate g 7 (2 * 59) 0 = Ok (map noise (seq 0 119))).
  { cbn [g generate].
    rewrite (@generate_without_correction _ b mean variance 7 (2 * 59) 0 119 0)
      by (try lia; vm_compute; reflexivity).
    rewrite (@noise_seq_window_0 _ b rs 0 (Z.of_nat 119) Hrs) by (vm_compute; intuition discriminate).
    cbn [bind]. rewrite !map_map. reflexivity. }
  split; [exact E1|]. split; [exact E2|]. split; [exact E3|].
  assert (Hne : forall (x y z : array) (rx ry rz : result array),
             rx = Ok x -> ry = Ok y -> rz = Ok z -> length z <> (length x + length y)%nat ->
             rz <> (x <- rx ;; y <- ry ;; Ok (x ++ y))).
  { intros x y z rx ry rz -> -> -> Hl. cbn [bind]. intros E.
    apply Hl. rewrite <- length_app.
    exact (f_equal (fun m => match m with Ok l => length l | Raise _ => 0%nat end) E). }
  apply (Hne _ _ _ _ _ _ E1 E2 E3).
  rewrite !length_map, !length_seq. discriminate.
Qed.

Lemma generate_7_59_halves_overlap_witness :
  @GaussianNoiseGenerator._seed_window_to_random_state small_backend 0 0 = Ok 0 /\
  (let g := GaussianNoiseGenerator 0 0 1 in
   let noise := fun i : nat => (@nth_draw small_backend 0%Z i * sqrt 1 + 0)%float in
   @generate small_backend g 7 59 0 = Ok (map noise (seq 0 60)) /\
   @generate small_backend g 7 59 (0 + 59 / 7) = Ok (map noise (seq 59 60)) /\
   @generate small_backend g 7 (2 * 59) 0 = Ok (map noise (seq 0 119)) /\
   @generate small_backend g 7 (2 * 59) 0
   <> (x <- @generate small_backend g 7 59 0 ;;
       y <- @generate small_backend g 7 59 (0 + 59 / 7) ;; Ok (x ++ y))).
Proof.
  split; [reflexivity|].
  apply (@generate_7_59_halves_overlap small_backend 0 0 1 0). reflexivity.
Defined.

(** * Further properties of the code *)

(** ** Seed allocation *)

Lemma seed_window_unfold `{Numpy} (b w : Z) :
  GaussianNoiseGenerator._seed_window_to_random_state b w = rk_seed (window_seed b w).
Proof. reflexivity. Qed.

Lemma init_appends (mean variance : float) (l : list Z) (s : Z) :
  GaussianNoiseGenerator.__init__ mean variance (l ++ [s])
  = Ok (GaussianNoiseGenerator s mean variance,
        (l ++ [s]) ++ [s + GaussianNoiseGenerator._seed_increment_per_generator]).
Proof.
  unfold GaussianNoiseGenerator.__init__. rewrite rev_app_distr. reflexivity.
Qed.

Lemma run_constructions `{Numpy} (ps : list (float * float)) (k : nat) (gs : list Generator) :
  run (constructions ps)
    {| _seed_list :=
         map (fun i => Z.of_nat i * GaussianNoiseGenerator._seed_increment_per_generator)
           (seq 0 (S k));
       generators := gs |}
  = {| _seed_list :=
         map (fun i => Z.of_nat i * GaussianNoiseGenerator._seed_increment_per_generator)
           (seq 0 (S (k + length ps)));
       generators :=
         gs ++ map (fun ip =>
                      GaussianNoiseGenerator
                        (Z.of_nat (fst ip) * GaussianNoiseGenerator._seed_increment_per_generator)
                        (fst (snd ip)) (snd (snd ip)))
                 (combine (seq k (length ps)) ps) |}.
Proof.
  revert k gs. induction ps as [|[m v] ps IH]; intros k gs.
  - cbn [constructions map run length combine seq]. rewrite Nat.add_0_r, app_nil_r.
    reflexivity.
  - cbn [constructions map run step fst snd _seed_list generators].
    rewrite (seq_S k 0), map_app. cbn [map Nat.add].
    rewrite init_appends.
    cbn [fst snd].
    replace ((map (fun i => Z.of_nat i * GaussianNoiseGenerator._seed_increment_per_generator)
                (seq 0 k)
              ++ [Z.of_nat k * GaussianNoiseGenerator._seed_increment_per_generator])
             ++ [Z.of_nat k * GaussianNoiseGenerator._seed_increment_per_generator
                 + GaussianNoiseGenerator._seed_increment_per_generator])
      with (map (fun i => Z.of_nat i * GaussianNoiseGenerator._seed_increment_per_generator)
              (seq 0 (S (S k)))).
    + fold (constructions ps). rewrite IH. cbn [length seq combine map fst snd].
      rewrite <- app_assoc. cbn [app].
      replace (S k + length ps)%nat with (k + S (length ps))%nat by lia. reflexivity.
    + rewrite (seq_S (S k) 0), map_app, (seq_S k 0), map_app. cbn [map Nat.add].
      do 2 f_equal. lia.
Qed.

(** Constructing generators one after the other from the state in which
    the module is loaded never raises; the [i]-th one (from 0) gets the base
    seed [i * (2^32 - 1)] and the mean and variance it was given, and the
    class-wide seed list then holds [0, 2^32 - 1, ..., k * (2^32 - 1)]. *)
Theorem seed_allocation `{Numpy} (ps : list (float * float)) :
  generators (run (constructions ps) initial_world)
  = map (fun ip =>
           GaussianNoiseGenerator
             (Z.of_nat (fst ip) * GaussianNoiseGenerator._seed_increment_per_generator)
             (fst (snd ip)) (snd (snd ip)))
      (combine (seq 0 (length ps)) ps) /\
  _seed_list (run (constructions ps) initial_world)
  = map (fun i => Z.of_nat i * GaussianNoiseGenerator._seed_increment_per_generator)
      (seq 0 (S (length ps))).
Proof.
  change initial_world
    with {| _seed_list :=
              map (fun i => Z.of_nat i * GaussianNoiseGenerator._seed_increment_per_generator)
                (seq 0 1);
            generators := [] |}.
  rewrite run_constructions. split; reflexivity.
Qed.

(** The seeds of one generator, and of different generators, do not
    collide while the windows stay within [2^31] of window 0: for generators
    number [k] and [k'] (base seeds [k * (2^32 - 1)] and [k' * (2^32 - 1)])
    and windows [w], [w'] with [-2^31 < w, w' < 2^31], equal seeds mean the
    same generator and the same window.  Seeds are never negative. *)
Theorem window_seed_injective (k k' w w' : Z) :
  0 <= k -> 0 <= k' ->
  - 2 ^ 31 < w < 2 ^ 31 ->
  - 2 ^ 31 < w' < 2 ^ 31 ->
  0 <= window_seed (k * GaussianNoiseGenerator._seed_increment_per_generator) w /\
  (window_seed (k * GaussianNoiseGenerator._seed_increment_per_generator) w
   = window_seed (k' * GaussianNoiseGenerator._seed_increment_per_generator) w' ->
   k = k' /\ w = w').
Proof.
  intros Hk Hk' Hw Hw'.
  unfold window_seed, GaussianNoiseGenerator.base_seed,
    GaussianNoiseGenerator._seed_increment_per_generator.
  cbn [GaussianNoiseGenerator.pos GaussianNoiseGenerator.neg].
  change (2 ^ 32) with 4294967296. change (2 ^ 31) with 2147483648 in *.
  destruct (Z.ltb_spec w 0); destruct (Z.ltb_spec w' 0); lia.
Qed.

Lemma window_seed_injective_witness :
  0 <= 0 /\ 0 <= 2 /\ - 2 ^ 31 < 5 < 2 ^ 31 /\ - 2 ^ 31 < -4 < 2 ^ 31 /\
  0 <= window_seed (0 * GaussianNoiseGenerator._seed_increment_per_generator) 5.
Proof.
  repeat (split; [lia|]).
  apply (@window_seed_injective 0 2 5 (-4)); lia.
Defined.

(** ** Requests for noise samples *)

Lemma mapM_nth (A B : Type) (f : A -> result B) (l : list A) (l' : list B)
  (j : nat) (d : A) (d' : B) :
  mapM f l = Ok l' -> (j < length l)%nat -> f (nth j l d) = Ok (nth j l' d').
Proof.
  revert l' j. induction l as [|a l IH]; intros l' j; cbn [mapM length].
  - intros _ Hj. lia.
  - destruct (f a) as [b|e] eqn:Eb; [|discriminate]. cbn [bind].
    destruct (mapM f l) as [bs|e]; [|discriminate]. cbn [bind].
    intros E Hj. injection E as <-. destruct j as [|j]; [exact Eb|].
    cbn [nth]. apply IH; [reflexivity | lia].
Qed.

Lemma mapM_is_ok (A B : Type) (f : A -> result B) (l : list A) :
  is_ok (mapM f l) = true <-> Forall (fun x => is_ok (f x) = true) l.
Proof.
  induction l as [|a l IH]; cbn [mapM].
  - split; [constructor | reflexivity].
  - destruct (f a) as [b|e] eqn:Eb; cbn [bind].
    + destruct (mapM f l) as [bs|e]; cbn [bind is_ok] in *.
      * split; [|reflexivity]. intros _. constructor; [rewrite Eb; reflexivity|].
        apply IH. reflexivity.
      * split; [discriminate|]. intros Hl. apply Forall_inv_tail in Hl. apply IH, Hl.
    + cbn [is_ok]. split; [discriminate|]. intros Hl. apply Forall_inv in Hl.
      rewrite Eb in Hl. exact Hl.
Qed.

Lemma nth_py_range (a b : Z) (j : nat) :
  (j < Z.to_nat (b - a))%nat -> nth j (py_range a b) 0 = a + Z.of_nat j.
Proof.
  intros Hj. unfold py_range.
  rewrite (nth_indep _ 0 (a + Z.of_nat 0))
    by (rewrite length_map, length_seq; exact Hj).
  change (nth j (map (fun i => a + Z.of_nat i) (seq 0 (Z.to_nat (b - a))))
            ((fun i => a + Z.of_nat i) 0%nat) = a + Z.of_nat j).
  rewrite map_nth, seq_nth by exact Hj. reflexivity.
Qed.

Lemma noise_seq_nth `{Numpy} (b a len : Z) (l : array) (i : Z) :
  noise_seq b a len = Ok l -> a <= i < a + len ->
  noise_at b i = Ok (nth (Z.to_nat (i - a)) l 0%float).
Proof.
  intros E Hi. unfold noise_seq in E.
  rewrite <- (@mapM_nth _ _ (noise_at b) _ _ (Z.to_nat (i - a)) 0 0%float E)
    by (rewrite py_range_length; lia).
  rewrite nth_py_range by lia. f_equal. lia.
Qed.

(** A request returns one sample for each index of its range, and the
    sample of an index does not depend on the request: two requests that
    return agree on every index they share, whatever their ranges and the
    windows these span. *)
Theorem draw_samples_consistent `{Numpy} (b a len a' len' : Z) (l l' : array) (i : Z) :
  0 < len -> 0 < len' ->
  GaussianNoiseGenerator._draw_samples b (a, a + len - 1) = Ok l ->
  GaussianNoiseGenerator._draw_samples b (a', a' + len' - 1) = Ok l' ->
  a <= i < a + len -> a' <= i < a' + len' ->
  length l = Z.to_nat len /\
  nth (Z.to_nat (i - a)) l 0%float = nth (Z.to_nat (i - a')) l' 0%float.
Proof.
  intros Hlen Hlen' E E' Hi Hi'.
  rewrite _draw_samples_spec in E, E' by assumption.
  split; [eapply noise_seq_length; exact E|].
  pose proof (@noise_seq_nth _ b a len l i E Hi) as N.
  pose proof (@noise_seq_nth _ b a' len' l' i E' Hi') as N'.
  rewrite N in N'. injection N' as ->. reflexivity.
Qed.

Lemma draw_samples_consistent_witness :
  exists l l',
    @GaussianNoiseGenerator._draw_samples small_backend 0 (0, 0 + 4 - 1) = Ok l /\
    @GaussianNoiseGenerator._draw_samples small_backend 0 (2, 2 + 3 - 1) = Ok l' /\
    length l = Z.to_nat 4 /\
    nth (Z.to_nat (3 - 0)) l 0%float = nth (Z.to_nat (3 - 2)) l' 0%float.
Proof.
  eexists. eexists.
  split; [vm_compute; reflexivity|]. split; [vm_compute; reflexivity|].
  eapply (@draw_samples_consistent small_backend 0 0 4 2 3 _ _ 3);
    [lia | lia | vm_compute; reflexivity | vm_compute; reflexivity | lia | lia].
Defined.

Lemma window_of_range (a len i : Z) :
  0 < len -> a <= i < a + len ->
  a / GaussianNoiseGenerator._samples_per_seed
  <= i / GaussianNoiseGenerator._samples_per_seed
  <= (a + len - 1) / GaussianNoiseGenerator._samples_per_seed.
Proof.
  intros Hlen Hi. pose proof W_pos as HW.
  split; apply Z.div_le_mono; lia.
Qed.

(** A request returns exactly when numpy accepts the seed of every window
    from the one of its first index to the one of its last index. *)
Theorem draw_samples_succeeds `{Numpy} (b a len : Z) :
  0 < len ->
  is_ok (GaussianNoiseGenerator._draw_samples b (a, a + len - 1)) = true <->
  (forall w,
     a / GaussianNoiseGenerator._samples_per_seed <= w
     <= (a + len - 1) / GaussianNoiseGenerator._samples_per_seed ->
     is_ok (rk_seed (window_seed b w)) = true).
Proof.
  intros Hlen. pose proof W_pos as HW.
  rewrite _draw_samples_spec by exact Hlen. unfold noise_seq.
  rewrite mapM_is_ok, Forall_forall. split.
  - intros Hall w Hw.
    set (i := Z.max a (w * GaussianNoiseGenerator._samples_per_seed)).
    pose proof (Z.mul_div_le a _ HW) as Ha.
    pose proof (Z.mul_div_le (a + len - 1) _ HW) as Hb.
    pose proof (Z.mod_pos_bound a _ HW) as Ma.
    pose proof (Z.div_mod a GaussianNoiseGenerator._samples_per_seed ltac:(lia)) as Da.
    assert (H1 : w * GaussianNoiseGenerator._samples_per_seed
                 <= (a + len - 1) / GaussianNoiseGenerator._samples_per_seed
                    * GaussianNoiseGenerator._samples_per_seed)
      by (apply Z.mul_le_mono_nonneg_r; lia).
    assert (Hi : a <= i < a + len) by (unfold i; lia).
    assert (Hq : i / GaussianNoiseGenerator._samples_per_seed = w).
    { destruct (Z.eq_dec w (a / GaussianNoiseGenerator._samples_per_seed)) as [->|Hne].
      - unfold i. rewrite Z.max_l by lia. reflexivity.
      - assert (H2 : (a / GaussianNoiseGenerator._samples_per_seed + 1)
                     * GaussianNoiseGenerator._samples_per_seed
                     <= w * GaussianNoiseGenerator._samples_per_seed)
          by (apply Z.mul_le_mono_nonneg_r; lia).
        unfold i. rewrite Z.max_r by lia. apply Z.div_mul. lia. }
    assert (Hin : In i (py_range a (a + len))).
    { unfold py_range. apply in_map_iff. exists (Z.to_nat (i - a)). split; [lia|].
      apply in_seq. lia. }
    specialize (Hall i Hin). unfold noise_at in Hall. rewrite Hq in Hall.
    rewrite seed_window_unfold in Hall.
    destruct (rk_seed (window_seed b w)); [reflexivity | discriminate].
  - intros Hall i Hin. unfold py_range in Hin. apply in_map_iff in Hin as [j [<- Hj]].
    apply in_seq in Hj. unfold noise_at. rewrite seed_window_unfold.
    assert (Hi : a <= a + Z.of_nat j < a + len) by lia.
    pose proof (@window_of_range a len _ Hlen Hi) as Hw.
    specialize (Hall _ Hw).
    destruct (rk_seed (window_seed b ((a + Z.of_nat j)
                                      / GaussianNoiseGenerator._samples_per_seed)));
      [reflexivity | discriminate].
Qed.

Lemma draw_samples_succeeds_witness :
  0 < 4 /\
  (@is_ok array (@GaussianNoiseGenerator._draw_samples small_backend 0
                   (1048574, 1048574 + 4 - 1)) = true <->
   (forall w,
      1048574 / GaussianNoiseGenerator._samples_per_seed <= w
      <= (1048574 + 4 - 1) / GaussianNoiseGenerator._samples_per_seed ->
      is_ok (@rk_seed small_backend (window_seed 0 w)) = true)).
Proof.
  split; [lia|]. apply (@draw_samples_succeeds small_backend 0 1048574 4). lia.
Defined.

(** ** Sizes of the sample vectors *)

Lemma bind_Ok (A B : Type) (m : result A) (k : A -> result B) (v : B) :
  bind m k = Ok v -> exists a, m = Ok a /\ k a = Ok v.
Proof. destruct m as [a|e]; [|discriminate]. intros E. exists a. split; [reflexivity|exact E]. Qed.

Lemma slice_length_le (A : Type) (a : list A) (i j : Z) :
  (length (slice a i j) <= Z.to_nat (j - i))%nat.
Proof. unfold slice. apply firstn_le_length. Qed.

Lemma fractional_delay_length `{Numpy} (samples_all tvec : array) (tvec0 : float)
  (s_min s_max : Z) (r : float) (out : array) :
  GaussianNoiseGenerator.fractional_delay samples_all tvec tvec0 s_min s_max r = Ok out ->
  (length out <= length tvec)%nat.
Proof.
  unfold GaussianNoiseGenerator.fractional_delay. intros E.
  apply bind_Ok in E as (npw & _ & E).
  destruct (npw <? 0); [discriminate|].
  apply bind_Ok in E as (spec & _ & E). cbv beta zeta in E.
  apply bind_Ok in E as (smf & _ & E).
  apply bind_Ok in E as (q & _ & E). cbv beta zeta in E.
  apply bind_Ok in E as (pw & _ & E).
  apply bind_Ok in E as (fstep & _ & E).
  apply bind_Ok in E as (fvec & _ & E). cbv beta zeta in E.
  apply bind_Ok in E as (sfft & _ & E).
  apply bind_Ok in E as (back & _ & E). cbv beta zeta in E.
  apply bind_Ok in E as (idx & _ & E).
  injection E as <-.
  etransitivity; [apply slice_length_le|]. lia.
Qed.

(** The noise generator never returns more samples than its time vector
    has points, on or off the integer grid and for every backend. *)
Theorem generate_length_bound `{Numpy} (b : Z) (mean variance r : float) (n : Z)
  (t : float) (tvec out : array) :
  Generator.get_time_vector r n t = Ok tvec ->
  GaussianNoiseGenerator.generate b mean variance r n t = Ok out ->
  (length out <= length tvec)%nat.
Proof.
  intros Et E. unfold GaussianNoiseGenerator.generate in E. rewrite Et in E. cbn [bind] in E.
  apply bind_Ok in E as (bounds & _ & E). cbv beta zeta in E.
  apply bind_Ok in E as (drawn & _ & E).
  apply bind_Ok in E as (kept & Ek & E). cbv beta zeta in E.
  injection E as <-. rewrite !length_map.
  destruct (Nat.ltb_spec (length tvec) (length drawn)) as [Hlt|Hge].
  - exact (fractional_delay_length _ _ _ _ _ _ Ek).
  - injection Ek as <-. exact Hge.
Qed.

Lemma generate_length_bound_witness :
  exists tvec out,
    Generator.get_time_vector 1 2 0.5 = Ok tvec /\
    @GaussianNoiseGenerator.generate small_backend 0 0 1 1 2 0.5 = Ok out /\
    (length out <= length tvec)%nat.
Proof.
  eexists. eexists.
  split; [vm_compute; reflexivity|]. split; [vm_compute; reflexivity|].
  eapply (@generate_length_bound small_backend 0 0 1 1 2 0.5); vm_compute; reflexivity.
Defined.

Lemma iadd_length (out v out' : array) :
  iadd out v = Ok out' -> length out' = length out.
Proof.
  unfold iadd. destruct (Nat.eqb_spec (length out) (length v)) as [E|_].
  - intros E'. injection E' as <-. rewrite length_map, length_combine. lia.
  - destruct v as [|y [|z v]]; try discriminate.
    intros E'. injection E' as <-. apply length_map.
Qed.

Lemma accumulate_length (f : instance -> result array) (cs : list instance)
  (acc out : array) :
  CompoundAnalogSignal.accumulate f cs acc = Ok out -> length out = length acc.
Proof.
  revert acc. induction cs as [|c cs IH]; intros acc; cbn [CompoundAnalogSignal.accumulate].
  - intros E. injection E as <-. reflexivity.
  - intros E. apply bind_Ok in E as (v & _ & E). apply bind_Ok in E as (acc' & Ea & E).
    rewrite (IH _ E). exact (iadd_length _ _ Ea).
Qed.

(** When the [sample] of a compound returns, it returns exactly [n]
    values, whatever its components are and return. *)
Theorem compound_sample_length `{Numpy} (c : instance) (r : float) (n : Z) (t : float)
  (out : array) :
  class_of c = C_CompoundAnalogSignal ->
  sample c r n t = Ok out ->
  Z.of_nat (length out) = n.
Proof.
  intros Ec E. rewrite sample_compound in E by exact Ec.
  unfold CompoundAnalogSignal.sample_with, np_zeros in E.
  destruct (Z.ltb_spec n 0) as [|Hn]; [discriminate|]. cbn [bind] in E.
  destruct (_components c) as [cs|]; [|discriminate].
  apply accumulate_length in E. rewrite E, repeat_length. lia.
Qed.

Lemma compound_sample_length_witness :
  exists out,
    class_of (Instance C_CompoundAnalogSignal None None None None None
                (Some [fresh (ConstantGenerator 2); fresh BaseGenerator]))
    = C_CompoundAnalogSignal /\
    @sample small_backend
      (Instance C_CompoundAnalogSignal None None None None None
         (Some [fresh (ConstantGenerator 2); fresh BaseGenerator])) 1 3 0 = Ok out /\
    Z.of_nat (length out) = 3.
Proof.
  eexists. split; [reflexivity|]. split; [vm_compute; reflexivity|].
  eapply (@compound_sample_length small_backend
            (Instance C_CompoundAnalogSignal None None None None None
               (Some [fresh (ConstantGenerator 2); fresh BaseGenerator])) 1 3 0);
    [reflexivity | vm_compute; reflexivity].
Defined.

(** ** Mutators *)

Lemma method_float_ok (m : mutator) (k : instance) (x : float) :
  transformed_object k -> snd (TransformedAnalogSignal_method m k (PyFloat x)) = Ok tt.
Proof.
  intros Hk. destruct (transformed_object_inv Hk) as (g & td & fg & ms & ps & cs & ->).
  destruct m, ms, ps; reflexivity.
Qed.

Lemma broadcast_float (m : mutator) (x : float) (cs : list instance) :
  Forall transformed_object cs ->
  CompoundAnalogSignal.broadcast (fun c => call_mutator m c (PyFloat x)) cs
  = (map (fun k => fst (TransformedAnalogSignal_method m k (PyFloat x))) cs, Ok tt).
Proof.
  induction 1 as [|c rest Hc _ IH]; [reflexivity|].
  cbn [CompoundAnalogSignal.broadcast map].
  rewrite (call_mutator_transformed m c (PyFloat x) (proj1 Hc)).
  pose proof (method_float_ok m x Hc) as Hr.
  destruct (TransformedAnalogSignal_method m c (PyFloat x)) as [c' r]. cbn [fst snd] in *.
  subst r. rewrite IH. reflexivity.
Qed.

(** A mutator called with a number on a constructed compound does not
    raise, and is the same mutator of [TransformedAnalogSignal] called on
    every component, in place. *)
Theorem compound_mutator_broadcasts (c : instance) (m : mutator) (x : float) :
  constructed c ->
  class_of c = C_CompoundAnalogSignal ->
  exists cs,
    _components c = Some cs /\
    call_mutator m c (PyFloat x)
    = (set_components c
         (map (fun k => fst (TransformedAnalogSignal_method m k (PyFloat x))) cs),
       Ok tt).
Proof.
  intros Hc Ec. pose proof (constructed_compound_object Hc Ec) as Ho.
  destruct (compound_object_inv Ho) as (cs & -> & Hcs).
  exists cs. split; [reflexivity|].
  rewrite call_mutator_compound by reflexivity.
  unfold CompoundAnalogSignal.mutate_with. cbn [_components].
  rewrite (broadcast_float m x Hcs). reflexivity.
Qed.

Lemma compound_mutator_broadcasts_witness :
  let c := Instance C_CompoundAnalogSignal None None None None None
             (Some [fresh (ConstantGenerator 2); fresh BaseGenerator]) in
  constructed c /\ class_of c = C_CompoundAnalogSignal /\
  exists cs,
    _components c = Some cs /\
    call_mutator m_apply_gain c (PyFloat 3)
    = (set_components c
         (map (fun k => fst (TransformedAnalogSignal_method m_apply_gain k (PyFloat 3))) cs),
       Ok tt).
Proof.
  assert (Hc : constructed
                 (Instance C_CompoundAnalogSignal None None None None None
                    (Some [fresh (ConstantGenerator 2); fresh BaseGenerator]))).
  { apply constructed_CompoundAnalogSignal
      with (l := [AnalogSignal.new (ConstantGenerator 2); AnalogSignal.new BaseGenerator]);
      [|reflexivity].
    intros b [<-|[<-|[]]]; constructor. }
  split; [exact Hc|]. split; [reflexivity|].
  apply (@compound_mutator_broadcasts _ m_apply_gain 3%float Hc). reflexivity.
Defined.

Lemma method_None_frame (m : mutator) (k : instance) :
  transformed_object k -> fst (TransformedAnalogSignal_method m k PyNone) = k.
Proof.
  intros Hk. destruct (transformed_object_inv Hk) as (g & td & fg & ms & ps & cs & ->).
  destruct m, ms, ps; reflexivity.
Qed.

Lemma broadcast_None_frame (m : mutator) (cs : list instance) :
  Forall transformed_object cs ->
  fst (CompoundAnalogSignal.broadcast (fun c => call_mutator m c PyNone) cs) = cs.
Proof.
  induction 1 as [|c rest Hc _ IH]; [reflexivity|].
  cbn [CompoundAnalogSignal.broadcast].
  rewrite (call_mutator_transformed m c PyNone (proj1 Hc)).
  pose proof (method_None_frame m Hc) as Hf.
  destruct (TransformedAnalogSignal_method m c PyNone) as [c' [u|e]]; cbn [fst] in *; subst c'.
  - destruct (CompoundAnalogSignal.broadcast (fun c0 => call_mutator m c0 PyNone) rest)
      as [rest' r']. cbn [fst] in *. subst rest'. reflexivity.
  - reflexivity.
Qed.

(** A mutator called with [None] never changes a constructed signal,
    plain, transformed or compound: whether the call returns or raises, the
    object and all its components are as they were. *)
Theorem mutator_None_changes_nothing (o : instance) (m : mutator) :
  constructed o -> fst (call_mutator m o PyNone) = o.
Proof.
  intros Ho. apply constructed_well_formed in Ho.
  destruct (well_formed_cases o Ho) as [[Ec Hg]|[Ht|Hc]].
  - destruct o as [c g td fg ms ps cs]. cbn in Ec. subst c. reflexivity.
  - rewrite call_mutator_transformed by exact (proj1 Ht). apply method_None_frame, Ht.
  - destruct (compound_object_inv Hc) as (cs & -> & Hcs).
    rewrite call_mutator_compound by reflexivity.
    unfold CompoundAnalogSignal.mutate_with. cbn [_components].
    pose proof (broadcast_None_frame m Hcs) as Hf.
    destruct (CompoundAnalogSignal.broadcast (fun c => call_mutator m c PyNone) cs)
      as [cs' r]. cbn [fst] in *. subst cs'. reflexivity.
Qed.

Lemma mutator_None_changes_nothing_witness :
  let c := Instance C_CompoundAnalogSignal None None None None None
             (Some [fresh (ConstantGenerator 2); fresh BaseGenerator]) in
  constructed c /\ fst (call_mutator m_apply_frequency_phase_slope c PyNone) = c.
Proof.
  assert (Hc : constructed
                 (Instance C_CompoundAnalogSignal None None None None None
                    (Some [fresh (ConstantGenerator 2); fresh BaseGenerator]))).
  { apply constructed_CompoundAnalogSignal
      with (l := [AnalogSignal.new (ConstantGenerator 2); AnalogSignal.new BaseGenerator]);
      [|reflexivity].
    intros b [<-|[<-|[]]]; constructor. }
  split; [exact Hc|].
  apply (@mutator_None_changes_nothing _ m_apply_frequency_phase_slope Hc).
Defined.

(** Two different mutators called with numbers on a
    [TransformedAnalogSignal] commute: either order leaves the same object. *)
Theorem mutators_commute (o : instance) (m1 m2 : mutator) (x1 x2 : float) :
  transformed_object o ->
  m1 <> m2 ->
  fst (TransformedAnalogSignal_method m2
         (fst (TransformedAnalogSignal_method m1 o (PyFloat x1))) (PyFloat x2))
  = fst (TransformedAnalogSignal_method m1
           (fst (TransformedAnalogSignal_method m2 o (PyFloat x2))) (PyFloat x1)).
Proof.
  intros Ho Hne. destruct (transformed_object_inv Ho) as (g & td & fg & ms & ps & cs & ->).
  destruct m1, m2; try contradiction; destruct ms, ps; reflexivity.
Qed.

Lemma mutators_commute_witness :
  transformed_object (fresh BaseGenerator) /\
  m_apply_delay <> m_apply_gain /\
  fst (TransformedAnalogSignal_method m_apply_gain
         (fst (TransformedAnalogSignal_method m_apply_delay (fresh BaseGenerator) (PyFloat 2)))
         (PyFloat 3))
  = fst (TransformedAnalogSignal_method m_apply_delay
           (fst (TransformedAnalogSignal_method m_apply_gain (fresh BaseGenerator) (PyFloat 3)))
           (PyFloat 2)).
Proof.
  assert (Ho : transformed_object (fresh BaseGenerator)) by (repeat split; discriminate).
  assert (Hne : m_apply_delay <> m_apply_gain) by discriminate.
  split; [exact Ho|]. split; [exact Hne|].
  apply (@mutators_commute _ m_apply_delay m_apply_gain 2%float 3%float Ho Hne).
Defined.

Lemma add_0_l_same (x : float) : F64.same_number (0 + x)%float x.
Proof.
  unfold F64.same_number.
  destruct (Prim2SF x) as [[|]|[|]| |[|] mx ex] eqn:Ex;
    try (left; apply Prim2SF_inj; rewrite add_spec, Prim2SF_zero, Ex; reflexivity).
  right. rewrite eqb_spec, add_spec, Prim2SF_zero, Ex. reflexivity.
Qed.

Lemma SFadd_zero_assoc (a b : spec_float) :
  SFadd prec emax (SFadd prec emax (S754_zero false) a) b
  = SFadd prec emax (S754_zero false) (SFadd prec emax a b) \/
  SFeqb (SFadd prec emax (SFadd prec emax (S754_zero false) a) b)
    (SFadd prec emax (S754_zero false) (SFadd prec emax a b)) = true.
Proof.
  assert (Hz : forall s, SFadd prec emax (S754_zero false) s = s \/
                         (s = S754_zero true /\
                          SFadd prec emax (S754_zero false) s = S754_zero false))
    by (intros [[|]|[|]| |[|] ms es]; auto).
  destruct a as [[|]|[|]| |sa ma ea].
  1-5: destruct b as [[|]|[|]| |[|] mb eb]; (left; reflexivity) || (right; reflexivity).
  change (SFadd prec emax (S754_zero false) (S754_finite sa ma ea))
    with (S754_finite sa ma ea).
  destruct (Hz (SFadd prec emax (S754_finite sa ma ea) b)) as [E|[E1 E2]].
  - left. symmetry. exact E.
  - right. rewrite E2, E1. reflexivity.
Qed.

Lemma add_zero_assoc (a b : float) :
  F64.same_number ((0 + a) + b)%float (0 + (a + b))%float.
Proof.
  destruct (SFadd_zero_assoc (Prim2SF a) (Prim2SF b)) as [E|E].
  - left. apply Prim2SF_inj. rewrite !add_spec, Prim2SF_zero. exact E.
  - right. rewrite eqb_spec, !add_spec, Prim2SF_zero. exact E.
Qed.

(** On a freshly constructed [TransformedAnalogSignal], gains compose
    exactly: [apply_gain(g1)] then [apply_gain(g2)] leaves the same object
    as [apply_gain(g1 * g2)], with gain [g1 * g2].  Delays compose as
    numbers: [apply_delay(d1)] then [apply_delay(d2)] leaves the delay
    [(0.0 + d1) + d2], which is the number that [apply_delay(d1 + d2)]
    leaves. *)
Theorem fresh_gain_and_delay_compose (g : Generator) (g1 g2 d1 d2 : float) :
  fst (TransformedAnalogSignal.apply_gain
         (fst (TransformedAnalogSignal.apply_gain (fresh g) (PyFloat g1))) (PyFloat g2))
  = fst (TransformedAnalogSignal.apply_gain (fresh g) (PyFloat (g1 * g2)%float)) /\
  TransformedAnalogSignal.flat_gain
    (fst (TransformedAnalogSignal.apply_gain
            (fst (TransformedAnalogSignal.apply_gain (fresh g) (PyFloat g1))) (PyFloat g2)))
  = Ok (g1 * g2)%float /\
  exists d d',
    TransformedAnalogSignal.time_delay
      (fst (TransformedAnalogSignal.apply_delay
              (fst (TransformedAnalogSignal.apply_delay (fresh g) (PyFloat d1))) (PyFloat d2)))
    = Ok d /\
    TransformedAnalogSignal.time_delay
      (fst (TransformedAnalogSignal.apply_delay (fresh g) (PyFloat (d1 + d2)%float)))
    = Ok d' /\
    d = ((0 + d1) + d2)%float /\ F64.same_number d d'.
Proof.
  cbn. rewrite !mul_1_l. split; [reflexivity|]. split; [reflexivity|].
  eexists. eexists. split; [reflexivity|]. split; [reflexivity|]. split; [reflexivity|].
  apply add_zero_assoc.
Qed.

(** ** Copies and rewrapping *)

(** Wrapping an object that [TransformedAnalogSignal(...)] returned gives
    an equal object: same generator, same four transform fields. *)
Theorem copy_of_transformed (x : pyobject) (o : instance) :
  TransformedAnalogSignal.new x = Ok o ->
  TransformedAnalogSignal.new (PyInstance o) = Ok o.
Proof.
  destruct x as [v|g|a]; [discriminate | discriminate |].
  destruct a as [c g td fg ms ps cs].
  destruct c, g, td, fg, ms, ps; cbn; intros E; try discriminate;
    injection E as <-; reflexivity.
Qed.

Lemma copy_of_transformed_witness :
  TransformedAnalogSignal.new (PyInstance (AnalogSignal.new (ConstantGenerator 2)))
  = Ok (fresh (ConstantGenerator 2)) /\
  TransformedAnalogSignal.new (PyInstance (fresh (ConstantGenerator 2)))
  = Ok (fresh (ConstantGenerator 2)).
Proof.
  split; [reflexivity|].
  apply (@copy_of_transformed (PyInstance (AnalogSignal.new (ConstantGenerator 2)))).
  reflexivity.
Defined.

Lemma copy_samples_alike `{Numpy} (k : instance) :
  transformed_object k ->
  exists k',
    TransformedAnalogSignal.new (PyInstance k) = Ok k' /\
    forall r n t, sample k' r n t = sample k r n t.
Proof.
  intros Hk. destruct (transformed_object_inv Hk) as (g & td & fg & ms & ps & cs & ->).
  eexists. split; [reflexivity|]. intros r n t.
  rewrite !sample_transformed by reflexivity. reflexivity.
Qed.

Lemma mapM_copies `{Numpy} (cs : list instance) :
  Forall transformed_object cs ->
  exists cs',
    mapM (fun t => TransformedAnalogSignal.new (PyInstance t)) cs = Ok cs' /\
    Forall2 (fun k k' => forall r n t, sample k' r n t = sample k r n t) cs cs'.
Proof.
  induction 1 as [|c cs Hc _ [cs' [E F]]]; [exists []; split; [reflexivity|constructor]|].
  destruct (copy_samples_alike Hc) as (c' & Ec & Sc).
  exists (c' :: cs'). cbn [mapM]. rewrite Ec. cbn [bind]. rewrite E. cbn [bind].
  split; [reflexivity|]. constructor; assumption.
Qed.

Lemma accumulate_alike (f f' : instance -> result array) (cs cs' : list instance) :
  Forall2 (fun k k' => f' k' = f k) cs cs' ->
  forall acc,
    CompoundAnalogSignal.accumulate f' cs' acc = CompoundAnalogSignal.accumulate f cs acc.
Proof.
  induction 1 as [|c c' cs cs' Ec _ IH]; intros acc; [reflexivity|].
  cbn [CompoundAnalogSignal.accumulate]. rewrite Ec.
  destruct (f c) as [v|e]; [|reflexivity]. cbn [bind].
  destruct (iadd acc v) as [acc'|e]; [|reflexivity]. cbn [bind]. apply IH.
Qed.

(** Flattening keeps the samples: [CompoundAnalogSignal([c])] of a
    constructed compound [c] does not raise, and its [sample(r, n, t)] is
    that of [c], the same vector or the same exception. *)
Theorem rewrapped_compound_samples `{Numpy} (c : instance) (r : float) (n : Z) (t : float) :
  constructed c ->
  class_of c = C_CompoundAnalogSignal ->
  exists c',
    CompoundAnalogSignal.new [PyInstance c] = Ok c' /\
    sample c' r n t = sample c r n t.
Proof.
  intros Hc Ec. pose proof (constructed_compound_object Hc Ec) as Ho.
  destruct (compound_object_inv Ho) as (cs & -> & Hcs).
  destruct (mapM_copies Hcs) as (cs' & E & F).
  exists (set_components (new_object C_CompoundAnalogSignal) cs'). split.
  - unfold CompoundAnalogSignal.new, CompoundAnalogSignal.__init__.
    cbn [CompoundAnalogSignal.add_signals CompoundAnalogSignal.components_of_element
         isinstance class_of issubclass CompoundAnalogSignal.components getattr
         _components bind].
    rewrite E. cbn [bind app CompoundAnalogSignal.add_signals]. reflexivity.
  - rewrite !sample_compound by reflexivity.
    unfold CompoundAnalogSignal.sample_with.
    destruct (np_zeros n) as [zeros|e]; [|reflexivity]. cbn [bind].
    cbn [_components set_components new_object].
    apply accumulate_alike.
    apply Forall2_impl with (2 := F). intros k k' Hk. apply Hk.
Qed.

Lemma rewrapped_compound_samples_witness :
  let c := Instance C_CompoundAnalogSignal None None None None None
             (Some [fresh (ConstantGenerator 2); fresh (SinusoidGenerator 1 10 0)]) in
  constructed c /\ class_of c = C_CompoundAnalogSignal /\
  exists c',
    CompoundAnalogSignal.new [PyInstance c] = Ok c' /\
    @sample small_backend c' 1000 4 0 = @sample small_backend c 1000 4 0.
Proof.
  assert (Hc : constructed
                 (Instance C_CompoundAnalogSignal None None None None None
                    (Some [fresh (ConstantGenerator 2); fresh (SinusoidGenerator 1 10 0)]))).
  { apply constructed_CompoundAnalogSignal
      with (l := [AnalogSignal.new (ConstantGenerator 2);
                  AnalogSignal.new (SinusoidGenerator 1 10 0)]);
      [|reflexivity].
    intros b [<-|[<-|[]]]; constructor. }
  split; [exact Hc|]. split; [reflexivity|].
  apply (@rewrapped_compound_samples small_backend _ 1000%float 4 0%float Hc). reflexivity.
Defined.

(** ** Edge cases of sampling *)

(** When the generator returns no sample (a count of zero for the
    constant and base generators), a transformed signal with both slopes
    unset returns the empty vector, and one with a slope set raises
    [ValueError]: the FFT of zero points is refused. *)
Theorem empty_samples_and_slopes `{Numpy} (o : instance) (g : Generator) (td : float)
  (r : float) (n : Z) (t : float) :
  transformed_object o ->
  _generator o = Some g ->
  _time_delay o = Some td ->
  generate g r n (t + td)%float = Ok [] ->
  (_frequency_magnitude_slope o = Some PyNone ->
   _frequency_phase_slope o = Some PyNone ->
   TransformedAnalogSignal.sample o r n t = Ok []) /\
  ((exists m, _frequency_magnitude_slope o = Some (PyFloat m)) \/
   (exists p, _frequency_phase_slope o = Some (PyFloat p)) ->
   TransformedAnalogSignal.sample o r n t = Raise ValueError).
Proof.
  intros Ho. destruct (transformed_object_inv Ho) as (g0 & td0 & fg & ms & ps & cs & ->).
  cbn. intros Eg Etd Egen. injection Eg as ->. injection Etd as ->.
  unfold TransformedAnalogSignal.sample.
  cbn [bind TransformedAnalogSignal.flat_gain TransformedAnalogSignal.time_delay
       AnalogSignal.generator class_of issubclass getattr _flat_gain _generator _time_delay].
  rewrite Egen. cbn [bind map]. split.
  - intros Em Ep. injection Em as ->. injection Ep as ->. reflexivity.
  - intros [[m Em]|[p Ep]].
    + injection Em as ->. reflexivity.
    + injection Ep as ->. destruct ms; reflexivity.
Qed.

Lemma empty_samples_and_slopes_witness :
  let o := Instance C_TransformedAnalogSignal (Some (ConstantGenerator 2))
             (Some 3%float) (Some 4%float) (Some (PyFloat 5)) (Some PyNone) None in
  transformed_object o /\
  @generate small_backend (ConstantGenerator 2) 1 0 (0 + 3)%float = Ok [] /\
  @TransformedAnalogSignal.sample small_backend o 1 0 0 = Raise ValueError.
Proof.
  assert (Ho : transformed_object
                 (Instance C_TransformedAnalogSignal (Some (ConstantGenerator 2))
                    (Some 3%float) (Some 4%float) (Some (PyFloat 5)) (Some PyNone) None))
    by (repeat split; discriminate).
  split; [exact Ho|]. split; [reflexivity|].
  apply (@empty_samples_and_slopes small_backend _ (ConstantGenerator 2) 3%float
           1%float 0 0%float Ho eq_refl eq_refl eq_refl).
  left. exists 5%float. reflexivity.
Defined.

(** At a rate of zero the sinusoid and the noise generator raise
    [ZeroDivisionError] (from [1.0/r] in [get_time_vector]), and so does
    every transformed signal over them, whatever its transform state, the
    count and the time offset. *)
Theorem sampling_at_rate_zero `{Numpy} (o : instance) (g : Generator) (r : float)
  (n : Z) (t : float) :
  transformed_object o ->
  _generator o = Some g ->
  (r =? 0)%float = true ->
  (exists a f p, g = SinusoidGenerator a f p) \/
  (exists s m v, g = GaussianNoiseGenerator s m v) ->
  generate g r n t = Raise ZeroDivisionError /\
  TransformedAnalogSignal.sample o r n t = Raise ZeroDivisionError.
Proof.
  intros Ho. destruct (transformed_object_inv Ho) as (g0 & td0 & fg & ms & ps & cs & ->).
  cbn. intros Eg Hr Hg. injection Eg as ->.
  assert (Ht : forall t', Generator.get_time_vector r n t' = Raise ZeroDivisionError).
  { intros t'. unfold Generator.get_time_vector, F64.py_div, F64.is_zero. rewrite Hr.
    reflexivity. }
  assert (Hgen : forall t', generate g r n t' = Raise ZeroDivisionError).
  { intros t'. destruct Hg as [(a & f & p & ->)|(s & m & v & ->)]; cbn [generate].
    - unfold SinusoidGenerator.generate. rewrite Ht. reflexivity.
    - unfold GaussianNoiseGenerator.generate. rewrite Ht. reflexivity. }
  split; [apply Hgen|].
  unfold TransformedAnalogSignal.sample.
  cbn [bind TransformedAnalogSignal.flat_gain TransformedAnalogSignal.time_delay
       AnalogSignal.generator class_of issubclass getattr _flat_gain _generator _time_delay].
  rewrite Hgen. reflexivity.
Qed.

Lemma sampling_at_rate_zero_witness :
  transformed_object (fresh (SinusoidGenerator 1 10 0)) /\
  (0 =? 0)%float = true /\
  @TransformedAnalogSignal.sample small_backend (fresh (SinusoidGenerator 1 10 0)) 0 5 0
  = Raise ZeroDivisionError.
Proof.
  assert (Ho : transformed_object (fresh (SinusoidGenerator 1 10 0)))
    by (repeat split; discriminate).
  split; [exact Ho|]. split; [reflexivity|].
  apply (@sampling_at_rate_zero small_backend _ (SinusoidGenerator 1 10 0) 0%float 5 0%float
           Ho eq_refl eq_refl).
  left. exists 1%float, 10%float, 0%float. reflexivity.
Defined.

(** A time vector that is not empty starts at [0.0 + t], which is the
    time offset [t] as a number (and [0.0] when [t] is the negative zero). *)
Theorem time_vector_starts_at_offset (r : float) (n : Z) (t : float) (x : float)
  (rest : array) :
  Generator.get_time_vector r n t = Ok (x :: rest) ->
  x = (0 + t)%float /\ F64.same_number x t.
Proof.
  unfold Generator.get_time_vector. intros E.
  apply bind_Ok in E as (delta_t & _ & E).
  apply bind_Ok in E as (nf & _ & E). cbv beta zeta in E.
  apply bind_Ok in E as (base & Eb & E). injection E as E.
  unfold np_arange in Eb.
  apply bind_Ok in Eb as (q & _ & Eb).
  apply bind_Ok in Eb as (len & _ & Eb). cbv beta zeta in Eb. injection Eb as <-.
  destruct (Z.to_nat len) as [|k]; [discriminate|].
  cbn [seq map] in E. injection E as <- _.
  split; [reflexivity | apply add_0_l_same].
Qed.

Lemma time_vector_starts_at_offset_witness :
  exists x rest,
    Generator.get_time_vector 10 3 0.5 = Ok (x :: rest) /\
    x = (0 + 0.5)%float /\ F64.same_number x 0.5.
Proof.
  eexists. eexists. split; [vm_compute; reflexivity|].
  eapply (@time_vector_starts_at_offset 10 3 0.5). vm_compute. reflexivity.
Defined.

(** A transformed constant signal with both slopes unset returns, for a
    count [n >= 0], [n] times the product of its gain and the amplitude: the
    delay, the rate and the time offset have no effect. *)
Theorem transformed_constant_samples `{Numpy} (o : instance) (a fg : float)
  (r : float) (n : Z) (t : float) :
  0 <= n ->
  transformed_object o ->
  _generator o = Some (ConstantGenerator a) ->
  _flat_gain o = Some fg ->
  _frequency_magnitude_slope o = Some PyNone ->
  _frequency_phase_slope o = Some PyNone ->
  TransformedAnalogSignal.sample o r n t = Ok (repeat (fg * a)%float (Z.to_nat n)).
Proof.
  intros Hn Ho. destruct (transformed_object_inv Ho) as (g0 & td0 & fg0 & ms & ps & cs & ->).
  cbn. intros Eg Efg Em Ep. injection Eg as ->. injection Efg as ->.
  injection Em as ->. injection Ep as ->.
  unfold TransformedAnalogSignal.sample.
  cbn [bind TransformedAnalogSignal.flat_gain TransformedAnalogSignal.time_delay
       AnalogSignal.generator class_of issubclass getattr _flat_gain _generator _time_delay
       generate].
  unfold ConstantGenerator.generate, np_ones.
  destruct (Z.ltb_spec n 0); [lia|]. cbn.
  rewrite !map_repeat, mul_1_r. reflexivity.
Qed.

Lemma transformed_constant_samples_witness :
  let o := Instance C_TransformedAnalogSignal (Some (ConstantGenerator 2))
             (Some 3%float) (Some 4%float) (Some PyNone) (Some PyNone) None in
  0 <= 3 /\ transformed_object o /\
  @TransformedAnalogSignal.sample small_backend o 10 3 0
  = Ok (repeat (4 * 2)%float (Z.to_nat 3)).
Proof.
  assert (Ho : transformed_object
                 (Instance C_TransformedAnalogSignal (Some (ConstantGenerator 2))
                    (Some 3%float) (Some 4%float) (Some PyNone) (Some PyNone) None))
    by (repeat split; discriminate).
  split; [lia|]. split; [exact Ho|].
  apply (@transformed_constant_samples small_backend _ 2%float 4%float 10%float 3 0%float);
    [lia | exact Ho | reflexivity | reflexivity | reflexivity | reflexivity].
Defined.
